(** * ipcheck MCP servers: the IP lookup operation and its error mapping

    A shallow embedding of the two server variants of the repository,

    - [LowLevel]: ipcheck_mcp.py (low-level [mcp.server.Server] API),
    - [FastMCP]:  ipcheck_mcp_fastmcp.py ([FastMCP] decorators),

    over a small model of the Python run time they rely on: exceptions,
    the [logging] calls, and the one outbound [httpx] call.  Asynchronous
    functions are embedded as computations in a state-and-exception monad
    whose state records the trace of observable events (log lines and
    outbound GET requests) and the frame of the running lookup. *)

From Stdlib Require Import ZArith String Ascii List Lia.
From stdpp Require Import base decidable option strings list gmap pretty.

Local Open Scope Z_scope.
Local Open Scope string_scope.
Local Open Scope list_scope.

(** ** Python values and exceptions *)

Module Py.

(** Values that can arrive in a tool call's [arguments] dict (they are
    decoded from JSON by the protocol layer). *)
#[local] Unset Elimination Schemes.
Inductive value : Type :=
| VNone
| VBool (b : bool)
| VInt (n : Z)
| VFloat (repr : string)
| VStr (s : string)
| VList (items : list value)
| VDict (items : list (string * value)).
#[local] Set Elimination Schemes.

(** Text of an exception object that is built by a library: what
    [str(e)] and [repr(e)] give. *)
Record exc_text : Type := ExcText { e_str : string; e_repr : string }.

(** Classes of the exceptions a library call may raise, as far as the
    [except] clauses of the program tell them apart.  All [httpx]
    classes down to [HTTPStatusError] derive from [httpx.HTTPError];
    [InvalidURL], [CookieConflict] and [StreamError] are [httpx]
    exceptions that do not. *)
Inductive lib_class : Type :=
| ConnectTimeout | ReadTimeout | WriteTimeout | PoolTimeout
| ConnectError | ReadError | WriteError | CloseError
| LocalProtocolError | RemoteProtocolError
| ProxyError | UnsupportedProtocol
| DecodingError | TooManyRedirects
| HTTPStatusError
| InvalidURL | CookieConflict | StreamError
| OtherException        (* any other subclass of Exception *)
| OtherBaseException.   (* e.g. CancelledError, KeyboardInterrupt *)

Record lib_exc : Type := LibExcObj { lib_cls : lib_class; lib_text : exc_text }.

Inductive exn : Type :=
| McpError (code : Z) (message : string)      (* McpError(ErrorData(code=, message=)) *)
| ValueError (msg : string)
| ValidationError (msg : string)              (* pydantic; derives from ValueError *)
| RuntimeError (msg : string) (cause : exn)   (* raise RuntimeError(msg) from cause *)
| UnboundLocalError (name : string)
| LibExc (e : lib_exc).

Global Instance lib_class_eq_dec : EqDecision lib_class.
Proof. solve_decision. Defined.

Definition is_HTTPError_class (c : lib_class) : bool :=
  match c with
  | InvalidURL | CookieConflict | StreamError
  | OtherException | OtherBaseException => false
  | _ => true
  end.

(** [isinstance(e, httpx.HTTPError)] *)
Definition isinstance_HTTPError (e : exn) : bool :=
  match e with
  | LibExc le => is_HTTPError_class (lib_cls le)
  | _ => false
  end.

(** [isinstance(e, ValueError)] *)
Definition isinstance_ValueError (e : exn) : bool :=
  match e with
  | ValueError _ | ValidationError _ => true
  | _ => false
  end.

(** [isinstance(e, Exception)] *)
Definition isinstance_Exception (e : exn) : bool :=
  match e with
  | LibExc le =>
      match lib_cls le with OtherBaseException => false | _ => true end
  | _ => true
  end.

(** [str(e)] *)
Definition str (e : exn) : string :=
  match e with
  | McpError _ message => message
  | ValueError msg | ValidationError msg | RuntimeError msg _ => msg
  | UnboundLocalError name =>
      "cannot access local variable '" +:+ name
        +:+ "' where it is not associated with a value"
  | LibExc le => e_str (lib_text le)
  end.

(** [repr(s)] for a string without quotes, backslashes or control
    characters; the program applies [{e!r}] only to exceptions caught
    from the HTTP call, whose text is the library's ([e_repr]). *)
Definition repr_str (s : string) : string := "'" +:+ s +:+ "'".

(** [repr(e)] *)
Definition repr (e : exn) : string :=
  match e with
  | McpError _ message => "McpError(" +:+ repr_str message +:+ ")"
  | ValueError msg => "ValueError(" +:+ repr_str msg +:+ ")"
  | ValidationError msg => msg
  | RuntimeError msg _ => "RuntimeError(" +:+ repr_str msg +:+ ")"
  | UnboundLocalError name => "UnboundLocalError(" +:+ repr_str (str e) +:+ ")"
  | LibExc le => e_repr (lib_text le)
  end.

(** [a or b] on an optional string: [None] and the empty string are
    falsy. *)
Definition or_ (a : option string) (b : string) : string :=
  match a with
  | Some s => if decide (s = "") then b else s
  | None => b
  end.

(** The line feed written [\n] in the source. *)
Definition nl : string := String (ascii_of_nat 10) EmptyString.

(** [isinstance(e, McpError)] *)
Definition isinstance_McpError (e : exn) : bool :=
  match e with
  | McpError _ _ => true
  | _ => false
  end.

(** The [SystemExit] that [sys.exit(code)] raises: a [BaseException]
    that is not an [Exception]. *)
Definition SystemExit (code : Z) : exn :=
  LibExc (LibExcObj OtherBaseException
            (ExcText (pretty code) ("SystemExit(" +:+ pretty code +:+ ")"))).

End Py.

(** ** Error codes of [mcp.types] (the JSON-RPC 2.0 values) *)

Definition INVALID_PARAMS : Z := -32602.
Definition INTERNAL_ERROR : Z := -32603.

(** ** The outbound HTTP call *)

Module Httpx.

(** Keyword arguments of [client.get(url, follow_redirects=, headers=,
    timeout=)]. *)
Record Request : Type := mkRequest {
  url : string;
  follow_redirects : bool;
  headers : list (string * string);
  timeout : Z
}.

(** The fields of [httpx.Response] the program reads: [status_code],
    [text], and the text of the [HTTPStatusError] that
    [raise_for_status()] builds for it. *)
Record Response : Type := mkResponse {
  status_code : Z;
  text : string;
  status_error : Py.exc_text
}.

(** What awaiting [client.get(...)] does: it returns the final response
    or raises. *)
Inductive Outcome : Type :=
| Responds (r : Response)
| Fails (e : Py.lib_exc).

(** [response.is_success]: a 2xx status. *)
Definition is_success (r : Response) : bool :=
  bool_decide (200 <= status_code r <= 299).

(** [response.raise_for_status()].  As httpx documents it, it raises
    [HTTPStatusError] for any response which is not a 2xx success code
    (its test is [is_success]), and returns otherwise. *)
Definition raise_for_status (r : Response) : option Py.exn :=
  if is_success r then None
  else Some (Py.LibExc (Py.LibExcObj Py.HTTPStatusError (status_error r))).

End Httpx.

Import Httpx.

(** ** Observable events, state, and the monad of the embedding *)

Inductive LogLevel : Type := INFO | ERROR | CRITICAL.

Inductive Event : Type :=
| Log (level : LogLevel) (msg : string) (exc_info : bool)
| Get (req : Request).

(** The environment of a run: the transport answering the [n]-th outbound
    GET of the run (counted from 0), the message pydantic puts in the
    [ValidationError] for a [format] argument that is not a string, and
    Python's rendering of an arguments dict in an f-string. *)
Record Env : Type := mkEnv {
  transport : nat -> Request -> Outcome;
  validation_message : Py.value -> string;
  dict_str : gmap string Py.value -> string
}.

(** [trace]: the events so far, oldest first.  [response]: the local
    variable [response] of the running [get_ip_address] frame, [None]
    while it is unbound. *)
Record State : Type := mkState {
  trace : list Event;
  response : option Response
}.

Inductive Result (A : Type) : Type :=
| Ok (a : A)
| Raise (e : Py.exn).
Arguments Ok {A} a.
Arguments Raise {A} e.

Definition M (A : Type) : Type := Env -> State -> Result A * State.

Definition ret {A} (a : A) : M A := fun _ st => (Ok a, st).

Definition bind {A B} (m : M A) (k : A -> M B) : M B :=
  fun env st =>
    match m env st with
    | (Ok a, st') => k a env st'
    | (Raise e, st') => (Raise e, st')
    end.

Definition raise {A} (e : Py.exn) : M A := fun _ st => (Raise e, st).

(** [x ← m; k] and [m;; k] are stdpp's notations for [bind]. *)
Global Instance M_ret : MRet M := @ret.
Global Instance M_bind : MBind M := fun A B k m => bind m k.

(** [try: body except ...: handler]: [handler e] is [Some h] when one of
    the [except] clauses matches [e], and [h] is then its body.  An
    exception raised by a handler is not caught by the sibling clauses. *)
Definition try_except {A} (body : M A) (handler : Py.exn -> option (M A)) : M A :=
  fun env st =>
    match body env st with
    | (Ok a, st') => (Ok a, st')
    | (Raise e, st') =>
        match handler e with
        | Some h => h env st'
        | None => (Raise e, st')
        end
    end.

Definition emit (ev : Event) : M unit :=
  fun _ st => (Ok tt, mkState (trace st ++ [ev]) (response st)).

Definition logger_info (msg : string) : M unit := emit (Log INFO msg false).
Definition logger_error (msg : string) (exc_info : bool) : M unit :=
  emit (Log ERROR msg exc_info).

(** The outbound requests of a trace, in order. *)
Definition gets (tr : list Event) : list Request :=
  omap (fun ev => match ev with Get r => Some r | Log _ _ _ => None end) tr.

(** [await client.get(url, ...)] inside [async with httpx.AsyncClient()]. *)
Definition client_get (req : Request) : M Response :=
  fun env st =>
    let st' := mkState (trace st ++ [Get req]) (response st) in
    match transport env (length (gets (trace st))) req with
    | Responds r => (Ok r, st')
    | Fails e => (Raise (Py.LibExc e), st')
    end.

(** [response = ...] *)
Definition store_response (r : Response) : M unit :=
  fun _ st => (Ok tt, mkState (trace st) (Some r)).

(** Reading the local [response]. *)
Definition load_response : M Response :=
  fun _ st =>
    match response st with
    | Some r => (Ok r, st)
    | None => (Raise (Py.UnboundLocalError "response"), st)
    end.

(** Calling a function: it runs in a fresh frame, and the caller's frame
    is back when it returns or raises. *)
Definition call {A} (f : M A) : M A :=
  fun env st =>
    let (r, st') := f env (mkState (trace st) None) in
    (r, mkState (trace st') (response st)).

Definition ask_validation_message (v : Py.value) : M string :=
  fun env st => (Ok (validation_message env v), st).

Definition ask_dict_str (d : gmap string Py.value) : M string :=
  fun env st => (Ok (dict_str env d), st).

(** ** ipcheck_mcp.py *)

Module LowLevel.

Definition DEFAULT_USER_AGENT : string := "ModelContextProtocol/1.0 (IP Checker)".

(** [class IPCheckOptions(BaseModel)]: one field, [format: str], with
    default ["text"]. *)
Record IPCheckOptions : Type := mkIPCheckOptions { format : string }.

(** Building [IPCheckOptions] from the keyword arguments unpacked from
    [arguments]: the field is looked up by name, the
    default is taken when it is absent, other keys are ignored, and a
    value that is not a string is a validation error. *)
Definition IPCheckOptions_init (arguments : gmap string Py.value) : M IPCheckOptions :=
  match arguments !! "format" with
  | None => mret (mkIPCheckOptions "text")
  | Some (Py.VStr s) => mret (mkIPCheckOptions s)
  | Some v => msg ← ask_validation_message v; raise (Py.ValidationError msg)
  end.

Definition get_ip_address (format_type user_agent : string) : M string :=
  call (
    let url := "https://ifconfig.me" in
    let url := if decide (format_type = "json") then url +:+ "/all.json" else url in
    logger_info ("Fetching IP from " +:+ url);;
    try_except
      (r ← client_get (mkRequest url true [("User-Agent", user_agent)] 10);
       store_response r;;
       response ← load_response;
       if decide (400 <= status_code response) then
         let error_msg :=
           "Failed to fetch IP address - status code " +:+ pretty (status_code response) in
         logger_error error_msg false;;
         raise (Py.McpError INTERNAL_ERROR error_msg)
       else
         logger_info "Successfully fetched IP address";;
         response ← load_response;
         mret (text response))
      (fun e =>
         if Py.isinstance_HTTPError e then Some (
           let error_msg := "Failed to fetch IP address: " +:+ Py.repr e in
           logger_error error_msg false;;
           raise (Py.McpError INTERNAL_ERROR error_msg))
         else None)).

(** [TextContent(type=, text=)] *)
Record TextContent : Type := mkTextContent { tc_type : string; tc_text : string }.

(** The [call_tool] handler that [serve] registers; [user_agent] is the
    variable of [serve] it closes over. *)
Definition call_tool (user_agent : string)
    (name : string) (arguments : gmap string Py.value) : M (list TextContent) :=
  shown ← ask_dict_str arguments;
  logger_info ("call_tool called with name=" +:+ name +:+ ", arguments=" +:+ shown);;
  args ← try_except
    (IPCheckOptions_init arguments)
    (fun e =>
       if Py.isinstance_ValueError e then Some (
         let error_msg := Py.str e in
         logger_error ("Invalid parameters: " +:+ error_msg) false;;
         raise (Py.McpError INVALID_PARAMS error_msg))
       else None);
  let format_type := format args in
  if decide (format_type ∉ ["text"; "json"]) then
    let error_msg := "Format must be 'text' or 'json'" in
    logger_error error_msg false;;
    raise (Py.McpError INVALID_PARAMS error_msg)
  else
    ip_info ← get_ip_address format_type user_agent;
    mret [mkTextContent "text"
            ("Server IP information from ifconfig.me:" +:+ Py.nl +:+ ip_info)].

(** What [serve] hands to the protocol server. *)
Record Handlers : Type := mkHandlers {
  h_call_tool : string -> gmap string Py.value -> M (list TextContent)
}.

(** [serve(custom_user_agent, host, port)] up to the registration of the
    handlers; the run loop that dispatches to them belongs to the
    framework. *)
Definition serve (custom_user_agent : option string) (host : string) (port : Z)
    : M Handlers :=
  let user_agent := Py.or_ custom_user_agent DEFAULT_USER_AGENT in
  logger_info ("Starting MCP server with user agent: " +:+ user_agent);;
  logger_info ("Starting MCP TCP server on " +:+ host +:+ ":" +:+ pretty port
                 +:+ " with user agent: " +:+ user_agent);;
  mret (mkHandlers (call_tool user_agent)).

(** [PromptMessage(role=, content=)] and
    [GetPromptResult(description=, messages=)] *)
Record PromptMessage : Type := mkPromptMessage { role : string; content : TextContent }.

Record GetPromptResult : Type := mkGetPromptResult {
  description : string;
  messages : list PromptMessage
}.

(** The [get_prompt] handler that [serve] registers; [arguments] may be
    [None].  The [except McpError] clause returns from the handler
    ([inl]); otherwise the handler goes on after the [try] ([inr]). *)
Definition get_prompt (user_agent : string)
    (name : string) (arguments : option (gmap string Py.value)) : M GetPromptResult :=
  shown ← match arguments with
          | Some d => ask_dict_str d
          | None => mret "None"
          end;
  logger_info ("get_prompt called with name=" +:+ name +:+ ", arguments=" +:+ shown);;
  outcome ← try_except
    (ip_info ← get_ip_address "text" user_agent;
     mret (inr ip_info))
    (fun e =>
       if Py.isinstance_McpError e then Some (
         logger_error ("Error in get_prompt: " +:+ Py.str e) false;;
         mret (inl (mkGetPromptResult "Failed to fetch IP address"
                      [mkPromptMessage "user" (mkTextContent "text" (Py.str e))])))
       else None);
  match outcome with
  | inl result => mret result
  | inr ip_info =>
      mret (mkGetPromptResult "Server IP Address"
              [mkPromptMessage "user"
                 (mkTextContent "text"
                    ("The server's public IP address is: " +:+ ip_info))])
  end.

(** What [serve] asks of the mcp framework once its handlers are
    registered: the text of [server.create_initialization_options()],
    entering [async with tcp_server(host, port)], and
    [await server.run(...)], which dispatches to the handlers until the
    connection ends. *)
Record Framework : Type := mkFramework {
  create_initialization_options : M string;
  tcp_server : string -> Z -> M unit;
  server_run : Handlers -> M unit
}.

(** [serve(custom_user_agent, host, port)] as a whole: [serve] above is
    the start of its [try] block, the rest of the block runs the
    framework, and the [except Exception] clause logs and re-raises. *)
Definition serve_and_run (fw : Framework)
    (custom_user_agent : option string) (host : string) (port : Z) : M unit :=
  try_except
    (h ← serve custom_user_agent host port;
     options ← create_initialization_options fw;
     logger_info ("Initialization options: " +:+ options);;
     tcp_server fw host port;;
     logger_info "Starting server run loop";;
     server_run fw h)
    (fun e =>
       if Py.isinstance_Exception e then Some (
         logger_error ("Unhandled exception: " +:+ Py.str e) true;;
         raise e)
       else None).

(** The [if __name__ == "__main__":] block. *)
Definition main (fw : Framework) : M unit :=
  logger_info "Starting MCP server";;
  body ← get_ip_address "json" DEFAULT_USER_AGENT;
  logger_info body;;
  try_except
    (serve_and_run fw None "127.0.0.1" 8000)
    (fun e =>
       if Py.isinstance_Exception e then Some (
         logger_error ("Fatal error: " +:+ Py.str e) true;;
         raise (Py.SystemExit 1))
       else None).

End LowLevel.

(** ** ipcheck_mcp_fastmcp.py *)

Module FastMCP.

Definition DEFAULT_USER_AGENT : string :=
  "ModelContextProtocol/1.0 (IP Checker via FastMCP)".

Definition get_ip_address (format_type user_agent : string) : M string :=
  call (
    let url := "https://ifconfig.me" in
    url ← (if decide (format_type = "json") then mret (url +:+ "/all.json")
           else if decide (format_type ≠ "text") then
             raise (Py.ValueError "Invalid format_type specified.")
           else mret url);
    logger_info ("Fetching IP from " +:+ url);;
    try_except
      (r ← client_get (mkRequest url true [("User-Agent", user_agent)] 10);
       store_response r;;
       response ← load_response;
       match raise_for_status response with
       | Some e => raise e
       | None => mret tt
       end;;
       logger_info "Successfully fetched IP address";;
       response ← load_response;
       mret (text response))
      (fun e =>
         if Py.isinstance_HTTPError e then Some (
           let error_msg := "Failed to fetch IP address: " +:+ Py.repr e in
           logger_error error_msg false;;
           response ← load_response;
           raise (Py.RuntimeError
                    ("HTTP Error fetching IP: " +:+ pretty (status_code response)) e))
         else if Py.isinstance_Exception e then Some (
           let error_msg := "An unexpected error occurred: " +:+ Py.repr e in
           logger_error error_msg true;;
           raise (Py.RuntimeError "Unexpected error fetching IP" e))
         else None)).

(** The [ipcheck] tool.  Its parameter is annotated
    [Literal["text", "json"]]; the function body itself takes any
    string. *)
Definition ipcheck (format : string) : M string :=
  logger_info ("Tool 'ipcheck' called with format='" +:+ format +:+ "'");;
  let user_agent := DEFAULT_USER_AGENT in
  try_except
    (ip_info ← get_ip_address format user_agent;
     mret ("Server IP information (" +:+ format +:+ "):" +:+ Py.nl +:+ ip_info))
    (fun e =>
       if Py.isinstance_Exception e then Some (
         logger_error ("Error executing ipcheck tool: " +:+ Py.str e) true;;
         raise e)
       else None).

(** The [show_ip] prompt. *)
Definition show_ip : M string :=
  logger_info "Prompt 'show_ip' called";;
  let user_agent := DEFAULT_USER_AGENT in
  try_except
    (ip_info ← get_ip_address "text" user_agent;
     mret ("The server's public IP address is: " +:+ ip_info))
    (fun e =>
       if Py.isinstance_Exception e then Some (
         logger_error ("Error executing show_ip prompt: " +:+ Py.str e) true;;
         mret ("Sorry, I encountered an error trying to fetch the IP address: "
                 +:+ Py.str e))
       else None).

(** The [if __name__ == "__main__":] block; [run] is
    [mcp_server.run(transport='stdio')] and ["IPCheckServer"] is
    [mcp_server.name]. *)
Definition main (run : M unit) : M unit :=
  logger_info ("Starting " +:+ "IPCheckServer" +:+ " using FastMCP...");;
  try_except
    run
    (fun e =>
       if Py.isinstance_Exception e then Some (
         emit (Log CRITICAL ("Fatal error running FastMCP server: " +:+ Py.str e) true);;
         raise (Py.SystemExit 1))
       else None).

End FastMCP.

(** ** Vocabulary of the statements *)

(** The request a lookup for [format_type] is expected to send on behalf
    of [user_agent]; used to state what the transport is asked. *)
Definition target_url (format_type : string) : string :=
  if decide (format_type = "json") then "https://ifconfig.me/all.json"
  else "https://ifconfig.me".

Definition outbound (format_type user_agent : string) : Request :=
  mkRequest (target_url format_type) true [("User-Agent", user_agent)] 10.



(** The state after one more event. *)
Definition after (st : State) (ev : Event) : State :=
  mkState (trace st ++ [ev]) (response st).

(** The format a call of the low-level tool asks for: the [format]
    argument when it is a string, the default when it is absent. *)
Definition asks_for (arguments : gmap string Py.value) (fmt : string) : Prop :=
  arguments !! "format" = Some (Py.VStr fmt)
  \/ (arguments !! "format" = None /\ fmt = "text").

Definition call_tool_entry (name : string) (arguments : gmap string Py.value)
    (env : Env) : Event :=
  Log INFO ("call_tool called with name=" +:+ name +:+ ", arguments="
              +:+ dict_str env arguments) false.

Definition ipcheck_entry (format : string) : Event :=
  Log INFO ("Tool 'ipcheck' called with format='" +:+ format +:+ "'") false.

(** The low-level server from its start to one tool call: [serve] sets
    the handlers up, and the protocol server then dispatches the call to
    [call_tool]. *)
Definition serve_then_call (custom_user_agent : option string) (host : string)
    (port : Z) (name : string) (arguments : gmap string Py.value)
    : M (list LowLevel.TextContent) :=
  h ← LowLevel.serve custom_user_agent host port;
  LowLevel.h_call_tool h name arguments.

(** Sample runs: a transport that always gives the same outcome, a state
    with nothing logged yet, a reply, and a connect timeout. *)
Definition stub (o : Outcome) : Env :=
  mkEnv (fun _ _ => o)
        (fun _ => "1 validation error for IPCheckOptions")
        (fun _ => "{...}").

Definition fresh : State := mkState [] None.

Definition reply (status : Z) (body : string) : Response :=
  mkResponse status body
    (Py.ExcText ("status " +:+ pretty status)
                ("HTTPStatusError('status " +:+ pretty status +:+ "')")).

Definition connect_timeout : Py.lib_exc :=
  Py.LibExcObj Py.ConnectTimeout (Py.ExcText "" "ConnectTimeout('')").

(** What the low-level lookup makes of the outcome of its request. *)
Definition lowlevel_result (o : Outcome) : Result string :=
  match o with
  | Responds r =>
      if decide (400 <= status_code r) then
        Raise (Py.McpError INTERNAL_ERROR
                 ("Failed to fetch IP address - status code "
                    +:+ pretty (status_code r)))
      else Ok (text r)
  | Fails e =>
      if Py.is_HTTPError_class (Py.lib_cls e) then
        Raise (Py.McpError INTERNAL_ERROR
                 ("Failed to fetch IP address: " +:+ Py.e_repr (Py.lib_text e)))
      else Raise (Py.LibExc e)
  end.

(** What the FastMCP lookup makes of the outcome of its request, for a
    format that passes its guard. *)
Definition fastmcp_result (o : Outcome) : Result string :=
  match o with
  | Responds r =>
      if is_success r then Ok (text r)
      else Raise (Py.RuntimeError
                    ("HTTP Error fetching IP: " +:+ pretty (status_code r))
                    (Py.LibExc (Py.LibExcObj Py.HTTPStatusError (status_error r))))
  | Fails e =>
      if Py.is_HTTPError_class (Py.lib_cls e) then
        Raise (Py.UnboundLocalError "response")
      else if decide (Py.lib_cls e = Py.OtherBaseException) then Raise (Py.LibExc e)
      else Raise (Py.RuntimeError "Unexpected error fetching IP" (Py.LibExc e))
  end.

Definition get_prompt_entry (name : string) (arguments : option (gmap string Py.value))
    (env : Env) : Event :=
  Log INFO ("get_prompt called with name=" +:+ name +:+ ", arguments="
              +:+ match arguments with
                  | Some d => dict_str env d
                  | None => "None"
                  end) false.

(** A framework for sample runs: it sets up without a trace, and its run
    loop ends with the given result. *)
Definition framework_ending (res : Result unit) : LowLevel.Framework :=
  LowLevel.mkFramework (mret "InitializationOptions()")
                       (fun _ _ => mret tt)
                       (fun _ _ st => (res, st)).

Definition port_in_use : Py.lib_exc :=
  Py.LibExcObj Py.OtherException
    (Py.ExcText "[Errno 98] Address already in use"
                "OSError(98, 'Address already in use')").

Definition cancelled : Py.lib_exc :=
  Py.LibExcObj Py.OtherBaseException (Py.ExcText "" "CancelledError()").

(** What the low-level tool makes of the result of its lookup. *)
Definition labelled (res : Result string) : Result (list LowLevel.TextContent) :=
  match res with
  | Ok ip_info =>
      Ok [LowLevel.mkTextContent "text"
            ("Server IP information from ifconfig.me:" +:+ Py.nl +:+ ip_info)]
  | Raise e => Raise e
  end.

(** The [format] argument of a tool call, with the default for a missing
    one. *)
Definition format_argument (arguments : gmap string Py.value) : Py.value :=
  default (Py.VStr "text") (arguments !! "format").

(** Two calls one after the other, the second only when the first
    returned. *)
Definition then_ {A B} (first : M A) (second : M B) : M B := first;; second.

(** * Properties *)

(** ** Traces *)

Lemma gets_app (tr1 tr2 : list Event) : gets (tr1 ++ tr2) = gets tr1 ++ gets tr2.
Proof. unfold gets. apply omap_app. Qed.

Lemma gets_snoc_log (tr : list Event) level msg exc_info :
  gets (tr ++ [Log level msg exc_info]) = gets tr.
Proof. rewrite gets_app. simpl. apply app_nil_r. Qed.

Lemma gets_snoc_get (tr : list Event) req : gets (tr ++ [Get req]) = gets tr ++ [req].
Proof. now rewrite gets_app. Qed.

Ltac run_monad :=
  unfold call, try_except, mbind, M_bind, bind, mret, M_ret, ret, raise,
    logger_info, logger_error, emit, client_get, store_response, load_response,
    ask_validation_message, ask_dict_str;
  simpl.

(** Computes the requests of a trace built by appending events. *)
Ltac gets_of_trace :=
  cbn [fst snd trace]; rewrite ?gets_app; cbn [gets omap app];
  rewrite ?app_nil_r; try done.

Ltac fold_url :=
  change ("https://ifconfig.me" +:+ "/all.json") with "https://ifconfig.me/all.json".

(** ** Runs of the low-level lookup, case by case *)

Section LowLevelRuns.
Variables (format_type user_agent : string) (env : Env) (st : State).
Let req := outbound format_type user_agent.
Let asked := transport env (length (gets (trace st))) req.
Let tr1 :=
  trace st ++ [Log INFO ("Fetching IP from " +:+ target_url format_type) false]
           ++ [Get req].

Lemma lowlevel_run_ok r :
  asked = Responds r -> status_code r < 400 ->
  LowLevel.get_ip_address format_type user_agent env st
  = (Ok (text r),
     mkState (tr1 ++ [Log INFO "Successfully fetched IP address" false]) (response st)).
Proof.
  subst asked tr1 req. unfold outbound, target_url. intros Hr Hs.
  unfold LowLevel.get_ip_address. run_monad.
  rewrite gets_snoc_log.
  destruct (decide (format_type = "json")); simpl in *; fold_url; rewrite Hr; simpl;
    (destruct (decide (400 <= status_code r)); [lia|]); simpl;
    now rewrite <- !app_assoc.
Qed.

Lemma lowlevel_run_status r :
  asked = Responds r -> 400 <= status_code r ->
  let error_msg := "Failed to fetch IP address - status code " +:+ pretty (status_code r) in
  LowLevel.get_ip_address format_type user_agent env st
  = (Raise (Py.McpError INTERNAL_ERROR error_msg),
     mkState (tr1 ++ [Log ERROR error_msg false]) (response st)).
Proof.
  subst asked tr1 req. unfold outbound, target_url. intros Hr Hs.
  unfold LowLevel.get_ip_address. run_monad.
  rewrite gets_snoc_log.
  destruct (decide (format_type = "json")); simpl in *; fold_url; rewrite Hr; simpl;
    (destruct (decide (400 <= status_code r)); [|lia]); simpl;
    now rewrite <- !app_assoc.
Qed.

Lemma lowlevel_run_http_error e :
  asked = Fails e -> Py.is_HTTPError_class (Py.lib_cls e) = true ->
  let error_msg := "Failed to fetch IP address: " +:+ Py.e_repr (Py.lib_text e) in
  LowLevel.get_ip_address format_type user_agent env st
  = (Raise (Py.McpError INTERNAL_ERROR error_msg),
     mkState (tr1 ++ [Log ERROR error_msg false]) (response st)).
Proof.
  subst asked tr1 req. unfold outbound, target_url. intros Hr Hs.
  unfold LowLevel.get_ip_address. run_monad.
  rewrite gets_snoc_log.
  destruct (decide (format_type = "json")); simpl in *; fold_url; rewrite Hr; simpl;
    rewrite Hs; simpl; now rewrite <- !app_assoc.
Qed.

Lemma lowlevel_run_other_error e :
  asked = Fails e -> Py.is_HTTPError_class (Py.lib_cls e) = false ->
  LowLevel.get_ip_address format_type user_agent env st
  = (Raise (Py.LibExc e), mkState tr1 (response st)).
Proof.
  subst asked tr1 req. unfold outbound, target_url. intros Hr Hs.
  unfold LowLevel.get_ip_address. run_monad.
  rewrite gets_snoc_log.
  destruct (decide (format_type = "json")); simpl in *; fold_url; rewrite Hr; simpl;
    rewrite Hs; simpl; now rewrite <- !app_assoc.
Qed.

(** Whatever the transport does, the lookup asks it exactly once. *)
Lemma lowlevel_run_gets :
  gets (trace (LowLevel.get_ip_address format_type user_agent env st).2)
  = gets (trace st) ++ [req].
Proof.
  destruct asked as [r|e] eqn:Hasked.
  - destruct (decide (400 <= status_code r)).
    + rewrite (lowlevel_run_status r) by done. subst tr1. gets_of_trace.
    + rewrite (lowlevel_run_ok r) by (done || lia). subst tr1. gets_of_trace.
  - destruct (Py.is_HTTPError_class (Py.lib_cls e)) eqn:Hc.
    + rewrite (lowlevel_run_http_error e) by done. subst tr1. gets_of_trace.
    + rewrite (lowlevel_run_other_error e) by done. subst tr1. gets_of_trace.
Qed.

End LowLevelRuns.

Lemma valid_format_cases (format_type : string) :
  format_type ∈ ["text"; "json"] -> format_type = "text" \/ format_type = "json".
Proof.
  intros H. apply list_elem_of_In in H. simpl in H. intuition auto.
Qed.

(** ** Runs of the FastMCP lookup, case by case *)

Section FastMCPRuns.
Variables (format_type user_agent : string) (env : Env) (st : State).
Let req := outbound format_type user_agent.
Let asked := transport env (length (gets (trace st))) req.
Let tr1 :=
  trace st ++ [Log INFO ("Fetching IP from " +:+ target_url format_type) false]
           ++ [Get req].

Lemma fastmcp_run_invalid :
  format_type <> "json" -> format_type <> "text" ->
  FastMCP.get_ip_address format_type user_agent env st
  = (Raise (Py.ValueError "Invalid format_type specified."),
     mkState (trace st) (response st)).
Proof.
  intros Hj Ht. unfold FastMCP.get_ip_address. run_monad.
  destruct (decide (format_type = "json")); [done|].
  destruct (decide (format_type <> "text")); [done|]. tauto.
Qed.

Ltac fastmcp_start Hfmt Hr :=
  subst asked tr1 req; unfold outbound, target_url; intros Hfmt Hr;
  unfold FastMCP.get_ip_address; run_monad;
  destruct (decide (format_type = "json"));
    [|destruct (decide (format_type <> "text"));
        [exfalso; destruct (valid_format_cases _ Hfmt); tauto|]];
    simpl in *; fold_url; rewrite gets_snoc_log, Hr; simpl.

Lemma fastmcp_run_ok r :
  format_type ∈ ["text"; "json"] ->
  asked = Responds r -> is_success r = true ->
  FastMCP.get_ip_address format_type user_agent env st
  = (Ok (text r),
     mkState (tr1 ++ [Log INFO "Successfully fetched IP address" false]) (response st)).
Proof.
  fastmcp_start Hfmt Hr; intros Hs; unfold raise_for_status; rewrite Hs; simpl;
    now rewrite <- !app_assoc.
Qed.

Lemma fastmcp_run_status r :
  format_type ∈ ["text"; "json"] ->
  asked = Responds r -> is_success r = false ->
  FastMCP.get_ip_address format_type user_agent env st
  = (Raise (Py.RuntimeError
              ("HTTP Error fetching IP: " +:+ pretty (status_code r))
              (Py.LibExc (Py.LibExcObj Py.HTTPStatusError (status_error r)))),
     mkState (tr1 ++ [Log ERROR ("Failed to fetch IP address: "
                                   +:+ Py.e_repr (status_error r)) false])
             (response st)).
Proof.
  fastmcp_start Hfmt Hr; intros Hs; unfold raise_for_status; rewrite Hs; simpl;
    now rewrite <- !app_assoc.
Qed.

Lemma fastmcp_run_http_error e :
  format_type ∈ ["text"; "json"] ->
  asked = Fails e -> Py.is_HTTPError_class (Py.lib_cls e) = true ->
  FastMCP.get_ip_address format_type user_agent env st
  = (Raise (Py.UnboundLocalError "response"),
     mkState (tr1 ++ [Log ERROR ("Failed to fetch IP address: "
                                   +:+ Py.e_repr (Py.lib_text e)) false])
             (response st)).
Proof.
  fastmcp_start Hfmt Hr; intros Hs; rewrite Hs; simpl;
    now rewrite <- !app_assoc.
Qed.

Lemma fastmcp_run_unexpected e :
  format_type ∈ ["text"; "json"] ->
  asked = Fails e -> Py.is_HTTPError_class (Py.lib_cls e) = false ->
  Py.lib_cls e <> Py.OtherBaseException ->
  FastMCP.get_ip_address format_type user_agent env st
  = (Raise (Py.RuntimeError "Unexpected error fetching IP" (Py.LibExc e)),
     mkState (tr1 ++ [Log ERROR ("An unexpected error occurred: "
                                   +:+ Py.e_repr (Py.lib_text e)) true])
             (response st)).
Proof.
  fastmcp_start Hfmt Hr; intros Hs Hb; rewrite Hs; simpl;
    (destruct (Py.lib_cls e); try done; simpl; now rewrite <- !app_assoc).
Qed.

Lemma fastmcp_run_base_exception e :
  format_type ∈ ["text"; "json"] ->
  asked = Fails e -> Py.lib_cls e = Py.OtherBaseException ->
  FastMCP.get_ip_address format_type user_agent env st
  = (Raise (Py.LibExc e), mkState tr1 (response st)).
Proof.
  fastmcp_start Hfmt Hr; intros Hs; rewrite Hs; simpl;
    now rewrite <- !app_assoc.
Qed.

(** A lookup that passes the format guard asks the transport exactly
    once; one that does not, never. *)
Lemma fastmcp_run_gets :
  gets (trace (FastMCP.get_ip_address format_type user_agent env st).2)
  = gets (trace st) ++ (if decide (format_type ∈ ["text"; "json"]) then [req] else []).
Proof.
  destruct (decide (format_type ∈ ["text"; "json"])) as [Hfmt|Hfmt].
  - destruct asked as [r|e] eqn:Hasked.
    + destruct (is_success r) eqn:Hs.
      * rewrite (fastmcp_run_ok r) by done. subst tr1. gets_of_trace.
      * rewrite (fastmcp_run_status r) by done. subst tr1. gets_of_trace.
    + destruct (Py.is_HTTPError_class (Py.lib_cls e)) eqn:Hc.
      * rewrite (fastmcp_run_http_error e) by done. subst tr1. gets_of_trace.
      * destruct (decide (Py.lib_cls e = Py.OtherBaseException)).
        -- rewrite (fastmcp_run_base_exception e) by done. subst tr1. gets_of_trace.
        -- rewrite (fastmcp_run_unexpected e) by done. subst tr1. gets_of_trace.
  - rewrite fastmcp_run_invalid by (intros ->; apply Hfmt; repeat constructor).
    gets_of_trace.
Qed.

End FastMCPRuns.

(** ** The tool handlers in terms of the lookup *)

Lemma call_tool_run_valid user_agent name arguments fmt env st :
  asks_for arguments fmt -> fmt ∈ ["text"; "json"] ->
  LowLevel.call_tool user_agent name arguments env st
  = match LowLevel.get_ip_address fmt user_agent env
            (after st (call_tool_entry name arguments env)) with
    | (Ok ip_info, st') =>
        (Ok [LowLevel.mkTextContent "text"
               ("Server IP information from ifconfig.me:" +:+ Py.nl +:+ ip_info)], st')
    | (Raise e, st') => (Raise e, st')
    end.
Proof.
  intros Hask Hfmt. unfold LowLevel.call_tool, LowLevel.IPCheckOptions_init.
  unfold after, call_tool_entry.
  destruct Hask as [Hask|[Hask ->]]; rewrite Hask; run_monad;
    try (destruct (decide (fmt ∉ _)) as [Hno|Hyes]; [contradiction|]);
    now destruct (LowLevel.get_ip_address _ _ _ _) as [[ip|e] st'].
Qed.

Lemma call_tool_run_bad_string user_agent name arguments s env st :
  arguments !! "format" = Some (Py.VStr s) -> s ∉ ["text"; "json"] ->
  let error_msg := "Format must be 'text' or 'json'" in
  LowLevel.call_tool user_agent name arguments env st
  = (Raise (Py.McpError INVALID_PARAMS error_msg),
     after (after st (call_tool_entry name arguments env))
           (Log ERROR error_msg false)).
Proof.
  intros Hask Hfmt. unfold LowLevel.call_tool, LowLevel.IPCheckOptions_init.
  unfold after, call_tool_entry. rewrite Hask. run_monad.
  destruct (decide (_ ∉ _)) as [Hno|Hyes]; [done|contradiction].
Qed.

Lemma call_tool_run_bad_type user_agent name arguments v env st :
  arguments !! "format" = Some v -> (forall s, v <> Py.VStr s) ->
  let error_msg := validation_message env v in
  LowLevel.call_tool user_agent name arguments env st
  = (Raise (Py.McpError INVALID_PARAMS error_msg),
     after (after st (call_tool_entry name arguments env))
           (Log ERROR ("Invalid parameters: " +:+ error_msg) false)).
Proof.
  intros Hask Hv. unfold LowLevel.call_tool, LowLevel.IPCheckOptions_init.
  unfold after, call_tool_entry. rewrite Hask.
  destruct v; try (now run_monad). now destruct (Hv s).
Qed.

Lemma ipcheck_run format env st :
  FastMCP.ipcheck format env st
  = match FastMCP.get_ip_address format FastMCP.DEFAULT_USER_AGENT env
            (after st (ipcheck_entry format)) with
    | (Ok ip_info, st') =>
        (Ok ("Server IP information (" +:+ format +:+ "):" +:+ Py.nl +:+ ip_info), st')
    | (Raise e, st') =>
        if Py.isinstance_Exception e then
          (Raise e, after st' (Log ERROR ("Error executing ipcheck tool: " +:+ Py.str e) true))
        else (Raise e, st')
    end.
Proof.
  unfold FastMCP.ipcheck, after, ipcheck_entry. run_monad.
  destruct (FastMCP.get_ip_address _ _ _ _) as [[ip|e] st']; [done|].
  now destruct (Py.isinstance_Exception e).
Qed.

(** The tool adds no request of its own to those of the lookup. *)
Lemma ipcheck_run_gets format env st :
  gets (trace (FastMCP.ipcheck format env st).2)
  = gets (trace (FastMCP.get_ip_address format FastMCP.DEFAULT_USER_AGENT env
                   (after st (ipcheck_entry format))).2).
Proof.
  rewrite ipcheck_run.
  destruct (FastMCP.get_ip_address _ _ _ _) as [[ip|e] st']; [done|].
  destruct (Py.isinstance_Exception e); [|done].
  unfold after. gets_of_trace.
Qed.

Lemma call_tool_run_gets user_agent name arguments fmt env st :
  asks_for arguments fmt -> fmt ∈ ["text"; "json"] ->
  gets (trace (LowLevel.call_tool user_agent name arguments env st).2)
  = gets (trace st) ++ [outbound fmt user_agent].
Proof.
  intros Hask Hfmt. rewrite (call_tool_run_valid _ _ _ fmt) by done.
  pose proof (lowlevel_run_gets fmt user_agent env
                (after st (call_tool_entry name arguments env))) as Hg.
  destruct (LowLevel.get_ip_address _ _ _ _) as [[ip|e] st'];
    simpl in *; rewrite Hg; unfold after; gets_of_trace.
Qed.

Lemma serve_then_call_run custom_user_agent host port name arguments env st :
  let user_agent := Py.or_ custom_user_agent LowLevel.DEFAULT_USER_AGENT in
  serve_then_call custom_user_agent host port name arguments env st
  = LowLevel.call_tool user_agent name arguments env
      (after (after st (Log INFO ("Starting MCP server with user agent: "
                                    +:+ user_agent) false))
             (Log INFO ("Starting MCP TCP server on " +:+ host +:+ ":"
                          +:+ pretty port +:+ " with user agent: " +:+ user_agent)
                  false)).
Proof.
  unfold serve_then_call, LowLevel.serve, after. run_monad.
  now destruct (LowLevel.call_tool _ _ _ _ _) as [[res|e] st'].
Qed.

Lemma gets_after_log st level msg exc_info :
  gets (trace (after st (Log level msg exc_info))) = gets (trace st).
Proof. unfold after. cbn [trace]. apply gets_snoc_log. Qed.

Lemma gets_call_tool_entry st name arguments env :
  gets (trace (after st (call_tool_entry name arguments env))) = gets (trace st).
Proof. apply gets_after_log. Qed.

Lemma gets_ipcheck_entry st format :
  gets (trace (after st (ipcheck_entry format))) = gets (trace st).
Proof. apply gets_after_log. Qed.

(** * The lookup contract, property by property *)

(** ** C1: a format outside text/json is rejected before any request *)

(** C1.  For every value of [format] other than ["text"] and ["json"]
    (a string or not), the ipcheck tool fails with an invalid-parameter
    error and sends no request: the low-level [call_tool] raises
    [McpError] with code [INVALID_PARAMS], the FastMCP [ipcheck] raises
    the [ValueError] of the lookup's guard, and in both the requests of
    the trace are those that were there before the call. *)
Theorem invalid_format_rejected :
  (forall user_agent name (arguments : gmap string Py.value) v env st,
      arguments !! "format" = Some v ->
      v <> Py.VStr "text" -> v <> Py.VStr "json" ->
      (exists message,
          (LowLevel.call_tool user_agent name arguments env st).1
          = Raise (Py.McpError INVALID_PARAMS message))
      /\ gets (trace (LowLevel.call_tool user_agent name arguments env st).2)
         = gets (trace st))
  /\ (forall format env st,
      format <> "text" -> format <> "json" ->
      (FastMCP.ipcheck format env st).1
      = Raise (Py.ValueError "Invalid format_type specified.")
      /\ gets (trace (FastMCP.ipcheck format env st).2) = gets (trace st)).
Proof.
  split.
  - intros user_agent name arguments v env st Hv Ht Hj.
    assert ((exists s, v = Py.VStr s) \/ (forall s, v <> Py.VStr s)) as [[s ->]|Hns].
    { destruct v; try (right; discriminate). left. eauto. }
    + rewrite (call_tool_run_bad_string _ _ _ s) by
        (try done; intros [->| ->]%valid_format_cases; congruence).
      split; [eauto|]. unfold after. gets_of_trace.
    + rewrite (call_tool_run_bad_type _ _ _ v) by done.
      split; [eauto|]. unfold after. gets_of_trace.
  - intros format env st Ht Hj.
    rewrite ipcheck_run, fastmcp_run_invalid by done. simpl.
    split; [done|]. unfold after. gets_of_trace.
Qed.

Lemma invalid_format_rejected_witness :
  ((exists message,
       (LowLevel.call_tool "ua" "ipcheck" {[ "format" := Py.VStr "xml" ]}
          (stub (Responds (reply 200 "203.0.113.5"))) fresh).1
       = Raise (Py.McpError INVALID_PARAMS message))
   /\ gets (trace (LowLevel.call_tool "ua" "ipcheck" {[ "format" := Py.VStr "xml" ]}
                     (stub (Responds (reply 200 "203.0.113.5"))) fresh).2)
      = gets (trace fresh))
  /\ ((FastMCP.ipcheck "xml" (stub (Responds (reply 200 "203.0.113.5"))) fresh).1
      = Raise (Py.ValueError "Invalid format_type specified.")
      /\ gets (trace (FastMCP.ipcheck "xml"
                        (stub (Responds (reply 200 "203.0.113.5"))) fresh).2)
         = gets (trace fresh)).
Proof.
  split.
  - apply (proj1 invalid_format_rejected "ua" "ipcheck"
             {[ "format" := Py.VStr "xml" ]} (Py.VStr "xml")).
    + reflexivity.
    + discriminate.
    + discriminate.
  - apply (proj2 invalid_format_rejected "xml"); discriminate.
Defined.

(** ** C2: an upstream status of 400 or more *)





(** ** C3: a transport failure *)

(** What the low-level variant does with a transport failure: one
    [McpError] whose message carries the [repr] of the cause, after one
    request and no other. *)
Lemma lowlevel_transport_failure format_type user_agent env st e :
  transport env (length (gets (trace st))) (outbound format_type user_agent) = Fails e ->
  Py.is_HTTPError_class (Py.lib_cls e) = true ->
  (LowLevel.get_ip_address format_type user_agent env st).1
  = Raise (Py.McpError INTERNAL_ERROR
             ("Failed to fetch IP address: " +:+ Py.e_repr (Py.lib_text e)))
  /\ gets (trace (LowLevel.get_ip_address format_type user_agent env st).2)
     = gets (trace st) ++ [outbound format_type user_agent].
Proof.
  intros He Hc. split; [|apply lowlevel_run_gets].
  now rewrite (lowlevel_run_http_error _ _ _ _ e).
Qed.

(** C3 at a connect timeout.  The low-level tool fails with the
    [McpError] that carries the cause, after its one request.  The
    FastMCP tool, after its one request, fails with [UnboundLocalError]
    for [response]: neither the classified [RuntimeError] nor the cause
    reaches the caller. *)
Theorem transport_failure_at_connect_timeout :
  (LowLevel.call_tool LowLevel.DEFAULT_USER_AGENT "ipcheck" ∅
     (stub (Fails connect_timeout)) fresh).1
  = Raise (Py.McpError INTERNAL_ERROR "Failed to fetch IP address: ConnectTimeout('')")
  /\ length (gets (trace (LowLevel.call_tool LowLevel.DEFAULT_USER_AGENT "ipcheck" ∅
                            (stub (Fails connect_timeout)) fresh).2)) = 1%nat
  /\ (FastMCP.ipcheck "text" (stub (Fails connect_timeout)) fresh).1
     = Raise (Py.UnboundLocalError "response")
  /\ length (gets (trace (FastMCP.ipcheck "text"
                            (stub (Fails connect_timeout)) fresh).2)) = 1%nat.
Proof. repeat split; vm_compute; reflexivity. Qed.

(** ** C4: the target URL *)

(** C4.  The URL of the request depends on the format alone: whatever
    the user agent, the transport and the state, a lookup for ["text"]
    asks for the base endpoint, and a lookup for ["json"] for the base
    endpoint followed by [/all.json]; this holds in both variants. *)
Theorem url_selected_by_format user_agent env st :
  (url <$> gets (trace (LowLevel.get_ip_address "text" user_agent env st).2)
   = (url <$> gets (trace st)) ++ ["https://ifconfig.me"])
  /\ (url <$> gets (trace (LowLevel.get_ip_address "json" user_agent env st).2)
      = (url <$> gets (trace st)) ++ ["https://ifconfig.me/all.json"])
  /\ (url <$> gets (trace (FastMCP.get_ip_address "text" user_agent env st).2)
      = (url <$> gets (trace st)) ++ ["https://ifconfig.me"])
  /\ (url <$> gets (trace (FastMCP.get_ip_address "json" user_agent env st).2)
      = (url <$> gets (trace st)) ++ ["https://ifconfig.me/all.json"]).
Proof.
  rewrite !lowlevel_run_gets, !fastmcp_run_gets.
  repeat split; now rewrite fmap_app.
Qed.

(** ** C5: the body of a successful lookup *)

(** C5, as stated, fails.  In the FastMCP variant a final reply with
    status 304, which is below 400, does not give its body back:
    [raise_for_status] rejects every status that is not 2xx, and the
    lookup fails. *)
Lemma fastmcp_status_304_is_no_success :
  status_code (reply 304 "203.0.113.5") < 400
  /\ (FastMCP.get_ip_address "text" "ua"
        (stub (Responds (reply 304 "203.0.113.5"))) fresh).1
     = Raise (Py.RuntimeError "HTTP Error fetching IP: 304"
                (Py.LibExc (Py.LibExcObj Py.HTTPStatusError
                              (status_error (reply 304 "203.0.113.5")))))
  /\ (FastMCP.get_ip_address "text" "ua"
        (stub (Responds (reply 304 "203.0.113.5"))) fresh).1
     <> Ok "203.0.113.5".
Proof. repeat split; vm_compute; congruence. Qed.

(** C5, amended.  The lookup returns the body of the reply exactly as
    received, with no transformation, trimming or re-encoding, whenever
    the low-level variant gets a status below 400, and whenever the
    FastMCP variant gets a 2xx status. *)
Theorem success_returns_body_verbatim format_type user_agent env st r :
  transport env (length (gets (trace st))) (outbound format_type user_agent)
  = Responds r ->
  (status_code r < 400 ->
   (LowLevel.get_ip_address format_type user_agent env st).1 = Ok (text r))
  /\ (format_type ∈ ["text"; "json"] -> 200 <= status_code r <= 299 ->
      (FastMCP.get_ip_address format_type user_agent env st).1 = Ok (text r)).
Proof.
  intros Hr. split.
  - intros Hs. now rewrite (lowlevel_run_ok _ _ _ _ r).
  - intros Hfmt Hs. rewrite (fastmcp_run_ok _ _ _ _ r); try done.
    unfold is_success. now apply bool_decide_eq_true.
Qed.

Lemma success_returns_body_verbatim_witness :
  (LowLevel.get_ip_address "text" "ua"
     (stub (Responds (reply 200 "203.0.113.5"))) fresh).1 = Ok "203.0.113.5"
  /\ (FastMCP.get_ip_address "text" "ua"
        (stub (Responds (reply 200 "203.0.113.5"))) fresh).1 = Ok "203.0.113.5".
Proof.
  destruct (success_returns_body_verbatim "text" "ua"
              (stub (Responds (reply 200 "203.0.113.5"))) fresh
              (reply 200 "203.0.113.5")) as [Hlow Hfast].
  - reflexivity.
  - split.
    + apply Hlow. simpl. lia.
    + apply Hfast.
      * constructor.
      * simpl. lia.
Defined.

(** ** C6: what the tool hands back *)

(** C6.  When the lookup succeeds, the tool returns one text payload: a
    label, a line feed, and then the text of the reply unchanged.  The
    low-level tool returns it as the single [TextContent] of a list, the
    FastMCP tool as a string whose label names the format. *)
Theorem tool_result_is_label_then_body :
  (forall user_agent name arguments fmt env st r,
      asks_for arguments fmt -> fmt ∈ ["text"; "json"] ->
      transport env (length (gets (trace st))) (outbound fmt user_agent) = Responds r ->
      status_code r < 400 ->
      (LowLevel.call_tool user_agent name arguments env st).1
      = Ok [LowLevel.mkTextContent "text"
              ("Server IP information from ifconfig.me:" +:+ Py.nl +:+ text r)])
  /\ (forall format env st r,
      format ∈ ["text"; "json"] ->
      transport env (length (gets (trace st)))
        (outbound format FastMCP.DEFAULT_USER_AGENT) = Responds r ->
      200 <= status_code r <= 299 ->
      (FastMCP.ipcheck format env st).1
      = Ok ("Server IP information (" +:+ format +:+ "):" +:+ Py.nl +:+ text r)).
Proof.
  split.
  - intros user_agent name arguments fmt env st r Hask Hfmt Hr Hs.
    rewrite (call_tool_run_valid _ _ _ fmt) by done.
    rewrite (lowlevel_run_ok _ _ _ _ r); [done| |done].
    now rewrite gets_call_tool_entry.
  - intros format env st r Hfmt Hr Hs.
    rewrite ipcheck_run, (fastmcp_run_ok _ _ _ _ r); [done|done| |].
    + now rewrite gets_ipcheck_entry.
    + unfold is_success. now apply bool_decide_eq_true.
Qed.

Lemma tool_result_is_label_then_body_witness :
  (LowLevel.call_tool "ua" "ipcheck" {[ "format" := Py.VStr "json" ]}
     (stub (Responds (reply 200 "203.0.113.5"))) fresh).1
  = Ok [LowLevel.mkTextContent "text"
          ("Server IP information from ifconfig.me:" +:+ Py.nl +:+ "203.0.113.5")]
  /\ (FastMCP.ipcheck "json" (stub (Responds (reply 200 "203.0.113.5"))) fresh).1
     = Ok ("Server IP information (json):" +:+ Py.nl +:+ "203.0.113.5").
Proof.
  split.
  - apply (proj1 tool_result_is_label_then_body "ua" "ipcheck"
             {[ "format" := Py.VStr "json" ]} "json"
             (stub (Responds (reply 200 "203.0.113.5"))) fresh
             (reply 200 "203.0.113.5")).
    + left. reflexivity.
    + do 2 constructor.
    + reflexivity.
    + simpl. lia.
  - apply (proj2 tool_result_is_label_then_body "json"
             (stub (Responds (reply 200 "203.0.113.5"))) fresh
             (reply 200 "203.0.113.5")).
    + do 2 constructor.
    + reflexivity.
    + simpl. lia.
Defined.

(** ** C7: the User-Agent header *)

Lemma serve_then_call_gets custom_user_agent host port name arguments fmt env st :
  asks_for arguments fmt -> fmt ∈ ["text"; "json"] ->
  gets (trace (serve_then_call custom_user_agent host port name arguments env st).2)
  = gets (trace st)
    ++ [outbound fmt (Py.or_ custom_user_agent LowLevel.DEFAULT_USER_AGENT)].
Proof.
  intros Hask Hfmt. rewrite serve_then_call_run. cbv zeta.
  rewrite (call_tool_run_gets _ _ _ fmt) by done.
  now rewrite !gets_after_log.
Qed.

(** C7, as stated, fails.  A server started with the empty string as its
    user-agent override does not send the override: [or] takes the empty
    string for a missing one, and the header is the default constant. *)
Lemma empty_override_is_not_sent :
  headers <$> gets (trace (serve_then_call (Some "") "127.0.0.1" 8000 "ipcheck" ∅
                             (stub (Responds (reply 200 "203.0.113.5"))) fresh).2)
  = [[("User-Agent", "ModelContextProtocol/1.0 (IP Checker)")]]
  /\ headers <$> gets (trace (serve_then_call (Some "") "127.0.0.1" 8000 "ipcheck" ∅
                                (stub (Responds (reply 200 "203.0.113.5"))) fresh).2)
     <> [[("User-Agent", "")]].
Proof. split; vm_compute; congruence. Qed.

(** C7, amended.  The request of a tool call carries one header,
    [User-Agent].  In the low-level variant its value is the default
    constant when the server was started without an override or with the
    empty string, and the override when the server was started with a
    non-empty one.  The FastMCP variant has no override: the value is
    always its own default constant. *)
Theorem user_agent_header :
  (forall host port name arguments fmt env st,
      asks_for arguments fmt -> fmt ∈ ["text"; "json"] ->
      headers <$> gets (trace (serve_then_call None host port name arguments env st).2)
      = (headers <$> gets (trace st))
        ++ [[("User-Agent", LowLevel.DEFAULT_USER_AGENT)]])
  /\ (forall override host port name arguments fmt env st,
      override <> "" ->
      asks_for arguments fmt -> fmt ∈ ["text"; "json"] ->
      headers <$> gets (trace (serve_then_call (Some override) host port
                                 name arguments env st).2)
      = (headers <$> gets (trace st)) ++ [[("User-Agent", override)]])
  /\ (forall host port name arguments fmt env st,
      asks_for arguments fmt -> fmt ∈ ["text"; "json"] ->
      headers <$> gets (trace (serve_then_call (Some "") host port
                                 name arguments env st).2)
      = (headers <$> gets (trace st))
        ++ [[("User-Agent", LowLevel.DEFAULT_USER_AGENT)]])
  /\ (forall format env st,
      format ∈ ["text"; "json"] ->
      headers <$> gets (trace (FastMCP.ipcheck format env st).2)
      = (headers <$> gets (trace st))
        ++ [[("User-Agent", FastMCP.DEFAULT_USER_AGENT)]]).
Proof.
  repeat split.
  - intros host port name arguments fmt env st Hask Hfmt.
    rewrite (serve_then_call_gets _ _ _ _ _ fmt) by done. now rewrite fmap_app.
  - intros override host port name arguments fmt env st Hne Hask Hfmt.
    rewrite (serve_then_call_gets _ _ _ _ _ fmt) by done. rewrite fmap_app.
    simpl. now destruct (decide (override = "")).
  - intros host port name arguments fmt env st Hask Hfmt.
    rewrite (serve_then_call_gets _ _ _ _ _ fmt) by done. now rewrite fmap_app.
  - intros format env st Hfmt.
    rewrite ipcheck_run_gets, fastmcp_run_gets, gets_ipcheck_entry.
    destruct (decide (format ∈ ["text"; "json"])); [|done].
    now rewrite fmap_app.
Qed.

Lemma user_agent_header_witness :
  headers <$> gets (trace (serve_then_call None "127.0.0.1" 8000 "ipcheck" ∅
                             (stub (Responds (reply 200 "203.0.113.5"))) fresh).2)
  = [[("User-Agent", LowLevel.DEFAULT_USER_AGENT)]]
  /\ headers <$> gets (trace (serve_then_call (Some "curl/8.5.0") "127.0.0.1" 8000
                                "ipcheck" ∅
                                (stub (Responds (reply 200 "203.0.113.5"))) fresh).2)
     = [[("User-Agent", "curl/8.5.0")]]
  /\ headers <$> gets (trace (serve_then_call (Some "") "127.0.0.1" 8000 "ipcheck" ∅
                                (stub (Responds (reply 200 "203.0.113.5"))) fresh).2)
     = [[("User-Agent", LowLevel.DEFAULT_USER_AGENT)]]
  /\ headers <$> gets (trace (FastMCP.ipcheck "text"
                                (stub (Responds (reply 200 "203.0.113.5"))) fresh).2)
     = [[("User-Agent", FastMCP.DEFAULT_USER_AGENT)]].
Proof.
  destruct user_agent_header as (Hnone & Hsome & Hempty & Hfast).
  assert (asks_for ∅ "text") as Hask by (right; split; reflexivity).
  assert ("text" ∈ ["text"; "json"]) as Hfmt by constructor.
  split; [|split; [|split]].
  - apply (Hnone "127.0.0.1" 8000 "ipcheck" ∅ "text" _ fresh Hask Hfmt).
  - apply (Hsome "curl/8.5.0" "127.0.0.1" 8000 "ipcheck" ∅ "text" _ fresh);
      [discriminate|exact Hask|exact Hfmt].
  - apply (Hempty "127.0.0.1" 8000 "ipcheck" ∅ "text" _ fresh Hask Hfmt).
  - apply (Hfast "text" _ fresh Hfmt).
Defined.

(** ** C8: one request per lookup *)

(** C8.  Whatever the transport answers, a lookup that is past the
    check of the format sends exactly one request, never a second one: a
    GET of the target URL with redirects followed, the given user agent
    as its only header, and a timeout of 10 seconds.  That is every
    low-level lookup, which has no check of its own, and every FastMCP
    lookup for ["text"] or ["json"]; a FastMCP lookup for any other
    format is stopped by its guard before the request, as the contract
    asks. *)
Theorem one_get_per_lookup format_type user_agent env st :
  gets (trace (LowLevel.get_ip_address format_type user_agent env st).2)
  = gets (trace st)
    ++ [mkRequest (target_url format_type) true [("User-Agent", user_agent)] 10]
  /\ gets (trace (FastMCP.get_ip_address format_type user_agent env st).2)
     = gets (trace st)
       ++ (if decide (format_type ∈ ["text"; "json"])
           then [mkRequest (target_url format_type) true
                   [("User-Agent", user_agent)] 10]
           else []).
Proof. split; [apply lowlevel_run_gets | apply fastmcp_run_gets]. Qed.

(** ** C9: the low-level lookup does not check the format *)

(** C9.  In the low-level variant, a lookup for any format other than
    ["json"] (["text"] or not) sends its request to the base URL and
    never fails with [INVALID_PARAMS]; the check of the format is in
    [call_tool], which rejects such a format, unless it is ["text"],
    without a request. *)
Theorem lowlevel_lookup_has_no_format_guard format_type user_agent env st :
  format_type <> "json" ->
  gets (trace (LowLevel.get_ip_address format_type user_agent env st).2)
  = gets (trace st)
    ++ [mkRequest "https://ifconfig.me" true [("User-Agent", user_agent)] 10]
  /\ (forall message,
         (LowLevel.get_ip_address format_type user_agent env st).1
         <> Raise (Py.McpError INVALID_PARAMS message))
  /\ (forall name (arguments : gmap string Py.value),
         arguments !! "format" = Some (Py.VStr format_type) ->
         format_type <> "text" ->
         (LowLevel.call_tool user_agent name arguments env st).1
         = Raise (Py.McpError INVALID_PARAMS "Format must be 'text' or 'json'")
         /\ gets (trace (LowLevel.call_tool user_agent name arguments env st).2)
            = gets (trace st)).
Proof.
  intros Hj. repeat split.
  - rewrite lowlevel_run_gets. unfold outbound, target_url.
    now destruct (decide (format_type = "json")).
  - intros message.
    destruct (transport env (length (gets (trace st)))
                (outbound format_type user_agent)) as [r|e] eqn:Hasked.
    + destruct (decide (400 <= status_code r)).
      * now rewrite (lowlevel_run_status _ _ _ _ r).
      * rewrite (lowlevel_run_ok _ _ _ _ r); [done|done|lia].
    + destruct (Py.is_HTTPError_class (Py.lib_cls e)) eqn:Hc.
      * now rewrite (lowlevel_run_http_error _ _ _ _ e).
      * now rewrite (lowlevel_run_other_error _ _ _ _ e).
  - rewrite (call_tool_run_bad_string _ _ _ format_type);
      [done|done|intros [->| ->]%valid_format_cases; congruence].
  - rewrite (call_tool_run_bad_string _ _ _ format_type);
      [|done|intros [->| ->]%valid_format_cases; congruence].
    unfold after. gets_of_trace.
Qed.

Lemma lowlevel_lookup_has_no_format_guard_witness :
  gets (trace (LowLevel.get_ip_address "xml" "ua"
                 (stub (Responds (reply 200 "203.0.113.5"))) fresh).2)
  = [mkRequest "https://ifconfig.me" true [("User-Agent", "ua")] 10]
  /\ (LowLevel.call_tool "ua" "ipcheck" {[ "format" := Py.VStr "xml" ]}
        (stub (Responds (reply 200 "203.0.113.5"))) fresh).1
     = Raise (Py.McpError INVALID_PARAMS "Format must be 'text' or 'json'").
Proof.
  destruct (lowlevel_lookup_has_no_format_guard "xml" "ua"
              (stub (Responds (reply 200 "203.0.113.5"))) fresh)
    as (Hget & _ & Htool).
  - discriminate.
  - split.
    + exact Hget.
    + apply (Htool "ipcheck" {[ "format" := Py.VStr "xml" ]}).
      * reflexivity.
      * discriminate.
Defined.

(** ** C10: the FastMCP handler reads [response] *)

(** C10.  In the FastMCP variant the handler for [httpx.HTTPError] reads
    [response.status_code].  When the error comes from
    [raise_for_status], [response] is bound and the lookup fails with the
    [RuntimeError] that names the status.  When [client.get] itself
    raises the error, [response] was never bound: the lookup fails with
    [UnboundLocalError], and with no [RuntimeError]. *)
Theorem fastmcp_handler_reads_unbound_response format_type user_agent env st :
  format_type ∈ ["text"; "json"] ->
  (forall e,
      transport env (length (gets (trace st))) (outbound format_type user_agent)
      = Fails e ->
      Py.is_HTTPError_class (Py.lib_cls e) = true ->
      (FastMCP.get_ip_address format_type user_agent env st).1
      = Raise (Py.UnboundLocalError "response")
      /\ (forall message cause,
             (FastMCP.get_ip_address format_type user_agent env st).1
             <> Raise (Py.RuntimeError message cause)))
  /\ (forall r,
      transport env (length (gets (trace st))) (outbound format_type user_agent)
      = Responds r ->
      ~ 200 <= status_code r <= 299 ->
      (FastMCP.get_ip_address format_type user_agent env st).1
      = Raise (Py.RuntimeError
                 ("HTTP Error fetching IP: " +:+ pretty (status_code r))
                 (Py.LibExc (Py.LibExcObj Py.HTTPStatusError (status_error r))))).
Proof.
  intros Hfmt. split.
  - intros e He Hc. now rewrite (fastmcp_run_http_error _ _ _ _ e).
  - intros r Hr Hs. rewrite (fastmcp_run_status _ _ _ _ r); try done.
    unfold is_success. now apply bool_decide_eq_false.
Qed.

Lemma fastmcp_handler_reads_unbound_response_witness :
  (FastMCP.get_ip_address "text" FastMCP.DEFAULT_USER_AGENT
     (stub (Fails connect_timeout)) fresh).1
  = Raise (Py.UnboundLocalError "response")
  /\ (FastMCP.get_ip_address "text" FastMCP.DEFAULT_USER_AGENT
        (stub (Responds (reply 503 ""))) fresh).1
     = Raise (Py.RuntimeError "HTTP Error fetching IP: 503"
                (Py.LibExc (Py.LibExcObj Py.HTTPStatusError
                              (status_error (reply 503 ""))))).
Proof.
  assert ("text" ∈ ["text"; "json"]) as Hfmt by constructor.
  split.
  - apply (proj1 (fastmcp_handler_reads_unbound_response "text"
                    FastMCP.DEFAULT_USER_AGENT (stub (Fails connect_timeout))
                    fresh Hfmt) connect_timeout); reflexivity.
  - apply (proj2 (fastmcp_handler_reads_unbound_response "text"
                    FastMCP.DEFAULT_USER_AGENT (stub (Responds (reply 503 "")))
                    fresh Hfmt) (reply 503 "")).
    + reflexivity.
    + simpl. lia.
Defined.

(** * Further properties of the lookups and the handlers *)

(** ** The result of a lookup as a function of the transport's answer *)

Lemma lowlevel_run_result format_type user_agent env st :
  (LowLevel.get_ip_address format_type user_agent env st).1
  = lowlevel_result (transport env (length (gets (trace st)))
                       (outbound format_type user_agent)).
Proof.
  unfold lowlevel_result.
  destruct (transport env _ _) as [r|e] eqn:Hasked.
  - destruct (decide (400 <= status_code r)).
    + now rewrite (lowlevel_run_status _ _ _ _ r).
    + rewrite (lowlevel_run_ok _ _ _ _ r); [done|done|lia].
  - destruct (Py.is_HTTPError_class (Py.lib_cls e)) eqn:Hc.
    + now rewrite (lowlevel_run_http_error _ _ _ _ e).
    + now rewrite (lowlevel_run_other_error _ _ _ _ e).
Qed.

Lemma fastmcp_run_result format_type user_agent env st :
  format_type ∈ ["text"; "json"] ->
  (FastMCP.get_ip_address format_type user_agent env st).1
  = fastmcp_result (transport env (length (gets (trace st)))
                      (outbound format_type user_agent)).
Proof.
  intros Hfmt. unfold fastmcp_result.
  destruct (transport env _ _) as [r|e] eqn:Hasked.
  - destruct (is_success r) eqn:Hs.
    + now rewrite (fastmcp_run_ok _ _ _ _ r).
    + now rewrite (fastmcp_run_status _ _ _ _ r).
  - destruct (Py.is_HTTPError_class (Py.lib_cls e)) eqn:Hc.
    + now rewrite (fastmcp_run_http_error _ _ _ _ e).
    + destruct (decide (Py.lib_cls e = Py.OtherBaseException)).
      * now rewrite (fastmcp_run_base_exception _ _ _ _ e).
      * now rewrite (fastmcp_run_unexpected _ _ _ _ e).
Qed.

(** ** The low-level [get_prompt] handler *)

Lemma get_prompt_run user_agent name arguments env st :
  LowLevel.get_prompt user_agent name arguments env st
  = match LowLevel.get_ip_address "text" user_agent env
            (after st (get_prompt_entry name arguments env)) with
    | (Ok ip_info, st') =>
        (Ok (LowLevel.mkGetPromptResult "Server IP Address"
               [LowLevel.mkPromptMessage "user"
                  (LowLevel.mkTextContent "text"
                     ("The server's public IP address is: " +:+ ip_info))]), st')
    | (Raise e, st') =>
        if Py.isinstance_McpError e then
          (Ok (LowLevel.mkGetPromptResult "Failed to fetch IP address"
                 [LowLevel.mkPromptMessage "user"
                    (LowLevel.mkTextContent "text" (Py.str e))]),
           after st' (Log ERROR ("Error in get_prompt: " +:+ Py.str e) false))
        else (Raise e, st')
    end.
Proof.
  unfold LowLevel.get_prompt, after, get_prompt_entry.
  destruct arguments as [d|]; run_monad;
    (destruct (LowLevel.get_ip_address _ _ _ _) as [[ip|e] st']; [done|]);
    now destruct (Py.isinstance_McpError e).
Qed.

Lemma gets_get_prompt_entry st name arguments env :
  gets (trace (after st (get_prompt_entry name arguments env))) = gets (trace st).
Proof. apply gets_after_log. Qed.

(** X1.  The prompt handler answers every reply of the upstream.  A
    status below 400 gives the result described as "Server IP Address",
    with one user message that holds the body after its label; a status
    of 400 or more gives, instead of an error, the result described as
    "Failed to fetch IP address", whose message is the text of the
    lookup's error and so names the status. *)
Theorem get_prompt_answers_every_reply user_agent name arguments env st r :
  transport env (length (gets (trace st))) (outbound "text" user_agent) = Responds r ->
  (status_code r < 400 ->
   (LowLevel.get_prompt user_agent name arguments env st).1
   = Ok (LowLevel.mkGetPromptResult "Server IP Address"
           [LowLevel.mkPromptMessage "user"
              (LowLevel.mkTextContent "text"
                 ("The server's public IP address is: " +:+ text r))]))
  /\ (400 <= status_code r ->
      (LowLevel.get_prompt user_agent name arguments env st).1
      = Ok (LowLevel.mkGetPromptResult "Failed to fetch IP address"
              [LowLevel.mkPromptMessage "user"
                 (LowLevel.mkTextContent "text"
                    ("Failed to fetch IP address - status code "
                       +:+ pretty (status_code r)))])).
Proof.
  intros Hr. rewrite get_prompt_run. split; intros Hs.
  - rewrite (lowlevel_run_ok _ _ _ _ r); [done| |done].
    now rewrite gets_get_prompt_entry.
  - rewrite (lowlevel_run_status _ _ _ _ r); [done| |done].
    now rewrite gets_get_prompt_entry.
Qed.

Lemma get_prompt_answers_every_reply_witness :
  (LowLevel.get_prompt "ua" "ipcheck" None
     (stub (Responds (reply 200 "203.0.113.5"))) fresh).1
  = Ok (LowLevel.mkGetPromptResult "Server IP Address"
          [LowLevel.mkPromptMessage "user"
             (LowLevel.mkTextContent "text"
                ("The server's public IP address is: " +:+ "203.0.113.5"))])
  /\ (LowLevel.get_prompt "ua" "ipcheck" None
        (stub (Responds (reply 503 ""))) fresh).1
     = Ok (LowLevel.mkGetPromptResult "Failed to fetch IP address"
             [LowLevel.mkPromptMessage "user"
                (LowLevel.mkTextContent "text"
                   ("Failed to fetch IP address - status code " +:+ pretty 503))]).
Proof.
  split.
  - apply (proj1 (get_prompt_answers_every_reply "ua" "ipcheck" None
                    (stub (Responds (reply 200 "203.0.113.5"))) fresh
                    (reply 200 "203.0.113.5") eq_refl)).
    simpl. lia.
  - apply (proj2 (get_prompt_answers_every_reply "ua" "ipcheck" None
                    (stub (Responds (reply 503 ""))) fresh
                    (reply 503 "") eq_refl)).
    simpl. lia.
Defined.

(** X2.  The prompt handler raises only what is not an
    [httpx.HTTPError]: a failed HTTP call of that class is answered with
    the result described as "Failed to fetch IP address", whose message
    holds the [repr] of the cause, and any other exception of the HTTP
    call leaves the handler as it is. *)
Theorem get_prompt_absorbs_http_errors user_agent name arguments env st e :
  transport env (length (gets (trace st))) (outbound "text" user_agent) = Fails e ->
  (Py.is_HTTPError_class (Py.lib_cls e) = true ->
   (LowLevel.get_prompt user_agent name arguments env st).1
   = Ok (LowLevel.mkGetPromptResult "Failed to fetch IP address"
           [LowLevel.mkPromptMessage "user"
              (LowLevel.mkTextContent "text"
                 ("Failed to fetch IP address: " +:+ Py.e_repr (Py.lib_text e)))]))
  /\ (Py.is_HTTPError_class (Py.lib_cls e) = false ->
      (LowLevel.get_prompt user_agent name arguments env st).1 = Raise (Py.LibExc e)).
Proof.
  intros He. rewrite get_prompt_run. split; intros Hc.
  - rewrite (lowlevel_run_http_error _ _ _ _ e); [done| |done].
    now rewrite gets_get_prompt_entry.
  - rewrite (lowlevel_run_other_error _ _ _ _ e); [done| |done].
    now rewrite gets_get_prompt_entry.
Qed.

Lemma get_prompt_absorbs_http_errors_witness :
  (LowLevel.get_prompt "ua" "ipcheck" (Some ∅) (stub (Fails connect_timeout)) fresh).1
  = Ok (LowLevel.mkGetPromptResult "Failed to fetch IP address"
          [LowLevel.mkPromptMessage "user"
             (LowLevel.mkTextContent "text"
                ("Failed to fetch IP address: " +:+ "ConnectTimeout('')"))])
  /\ (LowLevel.get_prompt "ua" "ipcheck" (Some ∅) (stub (Fails port_in_use)) fresh).1
     = Raise (Py.LibExc port_in_use).
Proof.
  split.
  - apply (proj1 (get_prompt_absorbs_http_errors "ua" "ipcheck" (Some ∅)
                    (stub (Fails connect_timeout)) fresh connect_timeout eq_refl)).
    reflexivity.
  - apply (proj2 (get_prompt_absorbs_http_errors "ua" "ipcheck" (Some ∅)
                    (stub (Fails port_in_use)) fresh port_in_use eq_refl)).
    reflexivity.
Defined.

(** X3.  Whatever the prompt name and the arguments, the prompt handler
    sends exactly one request, the one for the text format with the
    user agent of the server, and it never raises an [McpError]. *)
Theorem get_prompt_one_text_request user_agent name arguments env st :
  gets (trace (LowLevel.get_prompt user_agent name arguments env st).2)
  = gets (trace st)
    ++ [mkRequest "https://ifconfig.me" true [("User-Agent", user_agent)] 10]
  /\ (forall code message,
         (LowLevel.get_prompt user_agent name arguments env st).1
         <> Raise (Py.McpError code message)).
Proof.
  rewrite get_prompt_run.
  pose proof (lowlevel_run_gets "text" user_agent env
                (after st (get_prompt_entry name arguments env))) as Hg.
  rewrite gets_get_prompt_entry in Hg.
  destruct (LowLevel.get_ip_address _ _ _ _) as [[ip|e] st']; cbn [fst snd] in *.
  - split; [exact Hg|discriminate].
  - destruct (Py.isinstance_McpError e) eqn:Hm; cbn [fst snd].
    + split; [|discriminate]. now rewrite gets_after_log.
    + split; [exact Hg|]. intros code message [= ->]. discriminate.
Qed.

(** ** The low-level tool as a function of its [format] argument *)

Lemma call_tool_run_result user_agent name arguments env st :
  (LowLevel.call_tool user_agent name arguments env st).1
  = match format_argument arguments with
    | Py.VStr s =>
        if decide (s ∈ ["text"; "json"]) then
          labelled (lowlevel_result (transport env (length (gets (trace st)))
                                       (outbound s user_agent)))
        else Raise (Py.McpError INVALID_PARAMS "Format must be 'text' or 'json'")
    | v => Raise (Py.McpError INVALID_PARAMS (validation_message env v))
    end.
Proof.
  unfold format_argument.
  destruct (arguments !! "format") as [v|] eqn:Hv; simpl.
  - assert ((exists s, v = Py.VStr s) \/ (forall s, v <> Py.VStr s)) as [[s ->]|Hns].
    { destruct v; try (right; discriminate). left. eauto. }
    + destruct (decide (s ∈ ["text"; "json"])) as [Hfmt|Hfmt].
      * rewrite (call_tool_run_valid _ _ _ s) by (done || now left).
        rewrite <- (gets_call_tool_entry st name arguments env), <- lowlevel_run_result.
        now destruct (LowLevel.get_ip_address _ _ _ _) as [[ip|e] st'].
      * now rewrite (call_tool_run_bad_string _ _ _ s).
    + rewrite (call_tool_run_bad_type _ _ _ v) by done.
      destruct v; try done. now destruct (Hns s).
  - rewrite (call_tool_run_valid _ _ _ "text") by (try (now right); constructor).
    rewrite <- (gets_call_tool_entry st name arguments env), <- lowlevel_run_result.
    now destruct (LowLevel.get_ip_address _ _ _ _) as [[ip|e] st'].
Qed.

Lemma call_tool_run_requests user_agent name arguments env st :
  gets (trace (LowLevel.call_tool user_agent name arguments env st).2)
  = gets (trace st)
    ++ match format_argument arguments with
       | Py.VStr s =>
           if decide (s ∈ ["text"; "json"]) then [outbound s user_agent] else []
       | _ => []
       end.
Proof.
  unfold format_argument.
  destruct (arguments !! "format") as [v|] eqn:Hv; simpl.
  - assert ((exists s, v = Py.VStr s) \/ (forall s, v <> Py.VStr s)) as [[s ->]|Hns].
    { destruct v; try (right; discriminate). left. eauto. }
    + destruct (decide (s ∈ ["text"; "json"])) as [Hfmt|Hfmt].
      * apply call_tool_run_gets; [now left|done].
      * rewrite (call_tool_run_bad_string _ _ _ s) by done.
        unfold after. gets_of_trace.
    + rewrite (call_tool_run_bad_type _ _ _ v) by done.
      destruct v; try (unfold after; gets_of_trace). now destruct (Hns s).
  - apply call_tool_run_gets; [now right|constructor].
Qed.

(** X4.  A low-level tool call is determined by its [format] argument
    alone, with ["text"] standing for a missing one: the tool name and
    every other argument are ignored.  Two calls that agree on the format
    give the same result and send the same requests. *)
Theorem call_tool_reads_only_format user_agent name name'
    (arguments arguments' : gmap string Py.value) env st :
  format_argument arguments = format_argument arguments' ->
  (LowLevel.call_tool user_agent name arguments env st).1
  = (LowLevel.call_tool user_agent name' arguments' env st).1
  /\ gets (trace (LowLevel.call_tool user_agent name arguments env st).2)
     = gets (trace (LowLevel.call_tool user_agent name' arguments' env st).2).
Proof.
  intros Hsame. rewrite !call_tool_run_result, !call_tool_run_requests.
  now rewrite Hsame.
Qed.

Lemma call_tool_reads_only_format_witness :
  (LowLevel.call_tool "ua" "ipcheck" ∅
     (stub (Responds (reply 200 "203.0.113.5"))) fresh).1
  = (LowLevel.call_tool "ua" "no_such_tool"
       {[ "format" := Py.VStr "text"; "verbose" := Py.VBool true ]}
       (stub (Responds (reply 200 "203.0.113.5"))) fresh).1
  /\ gets (trace (LowLevel.call_tool "ua" "ipcheck" ∅
                    (stub (Responds (reply 200 "203.0.113.5"))) fresh).2)
     = gets (trace (LowLevel.call_tool "ua" "no_such_tool"
                      {[ "format" := Py.VStr "text"; "verbose" := Py.VBool true ]}
                      (stub (Responds (reply 200 "203.0.113.5"))) fresh).2).
Proof.
  apply (call_tool_reads_only_format "ua" "ipcheck" "no_such_tool" ∅
           {[ "format" := Py.VStr "text"; "verbose" := Py.VBool true ]}).
  reflexivity.
Defined.

(** ** What the lookups log *)

(** X5.  The low-level lookup logs the target URL, then sends its
    request, then logs how it went: the success line when it returns,
    and, when it fails with an [McpError], one ERROR line with the very
    message of that error.  An exception of the HTTP call that is not an
    [httpx.HTTPError] passes without a line. *)
Theorem lowlevel_lookup_logs_its_outcome format_type user_agent env st :
  exists tail,
    trace (LowLevel.get_ip_address format_type user_agent env st).2
    = trace st
      ++ [Log INFO ("Fetching IP from " +:+ target_url format_type) false;
          Get (mkRequest (target_url format_type) true
                 [("User-Agent", user_agent)] 10)]
      ++ tail
    /\ match (LowLevel.get_ip_address format_type user_agent env st).1 with
       | Ok _ => tail = [Log INFO "Successfully fetched IP address" false]
       | Raise (Py.McpError code message) =>
           code = INTERNAL_ERROR /\ tail = [Log ERROR message false]
       | Raise _ => tail = []
       end.
Proof.
  destruct (transport env (length (gets (trace st)))
              (outbound format_type user_agent)) as [r|e] eqn:Hasked.
  - destruct (decide (400 <= status_code r)).
    + rewrite (lowlevel_run_status _ _ _ _ r) by done. cbn [fst snd trace].
      eexists. split; [now rewrite <- !app_assoc|done].
    + rewrite (lowlevel_run_ok _ _ _ _ r) by (done || lia). cbn [fst snd trace].
      eexists. split; [now rewrite <- !app_assoc|done].
  - destruct (Py.is_HTTPError_class (Py.lib_cls e)) eqn:Hc.
    + rewrite (lowlevel_run_http_error _ _ _ _ e) by done. cbn [fst snd trace].
      eexists. split; [now rewrite <- !app_assoc|done].
    + rewrite (lowlevel_run_other_error _ _ _ _ e) by done. cbn [fst snd trace].
      exists []. split; [now rewrite app_nil_r|done].
Qed.

(** X6.  The FastMCP lookup, for a format that passes its guard, logs
    the target URL, then sends its request, then logs how it went: the
    success line when it returns; when a handler caught the exception,
    one ERROR line with the [repr] of what was caught, whether the lookup
    then fails with the [RuntimeError] caused by it or with the
    [UnboundLocalError]; nothing when the exception is not an
    [Exception]. *)
Theorem fastmcp_lookup_logs_its_outcome format_type user_agent env st :
  format_type ∈ ["text"; "json"] ->
  exists tail,
    trace (FastMCP.get_ip_address format_type user_agent env st).2
    = trace st
      ++ [Log INFO ("Fetching IP from " +:+ target_url format_type) false;
          Get (mkRequest (target_url format_type) true
                 [("User-Agent", user_agent)] 10)]
      ++ tail
    /\ match (FastMCP.get_ip_address format_type user_agent env st).1 with
       | Ok _ => tail = [Log INFO "Successfully fetched IP address" false]
       | Raise (Py.RuntimeError _ cause) =>
           tail = [Log ERROR ("Failed to fetch IP address: " +:+ Py.repr cause) false]
           \/ tail = [Log ERROR ("An unexpected error occurred: " +:+ Py.repr cause)
                        true]
       | Raise (Py.UnboundLocalError _) =>
           exists e,
             transport env (length (gets (trace st)))
               (outbound format_type user_agent) = Fails e
             /\ tail = [Log ERROR ("Failed to fetch IP address: "
                                     +:+ Py.e_repr (Py.lib_text e)) false]
       | Raise _ => tail = []
       end.
Proof.
  intros Hfmt.
  destruct (transport env (length (gets (trace st)))
              (outbound format_type user_agent)) as [r|e] eqn:Hasked.
  - destruct (is_success r) eqn:Hs.
    + rewrite (fastmcp_run_ok _ _ _ _ r) by done. cbn [fst snd trace].
      eexists. split; [now rewrite <- !app_assoc|done].
    + rewrite (fastmcp_run_status _ _ _ _ r) by done. cbn [fst snd trace].
      eexists. split; [now rewrite <- !app_assoc|now left].
  - destruct (Py.is_HTTPError_class (Py.lib_cls e)) eqn:Hc.
    + rewrite (fastmcp_run_http_error _ _ _ _ e) by done. cbn [fst snd trace].
      eexists. split; [now rewrite <- !app_assoc|eauto].
    + destruct (decide (Py.lib_cls e = Py.OtherBaseException)).
      * rewrite (fastmcp_run_base_exception _ _ _ _ e) by done. cbn [fst snd trace].
        exists []. split; [now rewrite app_nil_r|done].
      * rewrite (fastmcp_run_unexpected _ _ _ _ e) by done. cbn [fst snd trace].
        eexists. split; [now rewrite <- !app_assoc|now right].
Qed.

Lemma fastmcp_lookup_logs_its_outcome_witness :
  exists tail,
    trace (FastMCP.get_ip_address "json" "ua" (stub (Fails connect_timeout)) fresh).2
    = trace fresh
      ++ [Log INFO ("Fetching IP from " +:+ target_url "json") false;
          Get (mkRequest (target_url "json") true [("User-Agent", "ua")] 10)]
      ++ tail
    /\ match (FastMCP.get_ip_address "json" "ua"
                (stub (Fails connect_timeout)) fresh).1 with
       | Ok _ => tail = [Log INFO "Successfully fetched IP address" false]
       | Raise (Py.RuntimeError _ cause) =>
           tail = [Log ERROR ("Failed to fetch IP address: " +:+ Py.repr cause) false]
           \/ tail = [Log ERROR ("An unexpected error occurred: " +:+ Py.repr cause)
                        true]
       | Raise (Py.UnboundLocalError _) =>
           exists e,
             transport (stub (Fails connect_timeout)) (length (gets (trace fresh)))
               (outbound "json" "ua") = Fails e
             /\ tail = [Log ERROR ("Failed to fetch IP address: "
                                     +:+ Py.e_repr (Py.lib_text e)) false]
       | Raise _ => tail = []
       end.
Proof.
  apply (fastmcp_lookup_logs_its_outcome "json" "ua" (stub (Fails connect_timeout))
           fresh).
  do 2 constructor.
Defined.

(** ** Exceptions of the HTTP call that are not [httpx.HTTPError] *)

(** X7.  In the low-level variant an exception of the HTTP call that is
    not an [httpx.HTTPError] is neither wrapped nor logged: the tool
    fails with that exception itself, and the trace ends with the
    request. *)
Theorem lowlevel_tool_passes_foreign_exception
    user_agent name arguments fmt env st e :
  asks_for arguments fmt -> fmt ∈ ["text"; "json"] ->
  transport env (length (gets (trace st))) (outbound fmt user_agent) = Fails e ->
  Py.is_HTTPError_class (Py.lib_cls e) = false ->
  LowLevel.call_tool user_agent name arguments env st
  = (Raise (Py.LibExc e),
     mkState (trace st
                ++ [call_tool_entry name arguments env;
                    Log INFO ("Fetching IP from " +:+ target_url fmt) false;
                    Get (outbound fmt user_agent)])
             (response st)).
Proof.
  intros Hask Hfmt He Hc. rewrite (call_tool_run_valid _ _ _ fmt) by done.
  rewrite (lowlevel_run_other_error _ _ _ _ e); [| |done].
  - unfold after. cbn [trace response]. now rewrite <- !app_assoc.
  - now rewrite gets_call_tool_entry.
Qed.

Lemma lowlevel_tool_passes_foreign_exception_witness :
  LowLevel.call_tool "ua" "ipcheck" ∅ (stub (Fails port_in_use)) fresh
  = (Raise (Py.LibExc port_in_use),
     mkState (trace fresh
                ++ [call_tool_entry "ipcheck" ∅ (stub (Fails port_in_use));
                    Log INFO ("Fetching IP from " +:+ target_url "text") false;
                    Get (outbound "text" "ua")])
             (response fresh)).
Proof.
  apply (lowlevel_tool_passes_foreign_exception "ua" "ipcheck" ∅ "text"
           (stub (Fails port_in_use)) fresh port_in_use).
  - right. split; reflexivity.
  - constructor.
  - reflexivity.
  - reflexivity.
Defined.

(** X8.  In the FastMCP variant an [Exception] of the HTTP call that is
    not an [httpx.HTTPError] reaches the caller of the tool as
    [RuntimeError("Unexpected error fetching IP")] caused by it, logged
    twice with [exc_info]: once by the lookup with its [repr], once by
    the tool.  An exception that is not an [Exception] passes through
    both, unchanged and without an ERROR line. *)
Theorem fastmcp_tool_wraps_unexpected_exception format env st e :
  format ∈ ["text"; "json"] ->
  transport env (length (gets (trace st)))
    (outbound format FastMCP.DEFAULT_USER_AGENT) = Fails e ->
  Py.is_HTTPError_class (Py.lib_cls e) = false ->
  (Py.lib_cls e <> Py.OtherBaseException ->
   FastMCP.ipcheck format env st
   = (Raise (Py.RuntimeError "Unexpected error fetching IP" (Py.LibExc e)),
      mkState (trace st
                 ++ [ipcheck_entry format;
                     Log INFO ("Fetching IP from " +:+ target_url format) false;
                     Get (outbound format FastMCP.DEFAULT_USER_AGENT);
                     Log ERROR ("An unexpected error occurred: "
                                  +:+ Py.e_repr (Py.lib_text e)) true;
                     Log ERROR ("Error executing ipcheck tool: "
                                  +:+ "Unexpected error fetching IP") true])
              (response st)))
  /\ (Py.lib_cls e = Py.OtherBaseException ->
      FastMCP.ipcheck format env st
      = (Raise (Py.LibExc e),
         mkState (trace st
                    ++ [ipcheck_entry format;
                        Log INFO ("Fetching IP from " +:+ target_url format) false;
                        Get (outbound format FastMCP.DEFAULT_USER_AGENT)])
                 (response st))).
Proof.
  intros Hfmt He Hc. rewrite ipcheck_run. split; intros Hb.
  - rewrite (fastmcp_run_unexpected _ _ _ _ e); [| done | | done | done].
    + unfold after. cbn [Py.isinstance_Exception Py.str trace response].
      now rewrite <- !app_assoc.
    + now rewrite gets_ipcheck_entry.
  - rewrite (fastmcp_run_base_exception _ _ _ _ e); [| done | | done].
    + unfold after. cbn [Py.isinstance_Exception trace response]. rewrite Hb.
      now rewrite <- !app_assoc.
    + now rewrite gets_ipcheck_entry.
Qed.

Lemma fastmcp_tool_wraps_unexpected_exception_witness :
  (FastMCP.ipcheck "text" (stub (Fails port_in_use)) fresh).1
  = Raise (Py.RuntimeError "Unexpected error fetching IP" (Py.LibExc port_in_use))
  /\ (FastMCP.ipcheck "text" (stub (Fails cancelled)) fresh).1
     = Raise (Py.LibExc cancelled).
Proof.
  assert ("text" ∈ ["text"; "json"]) as Hfmt by constructor.
  split.
  - rewrite (proj1 (fastmcp_tool_wraps_unexpected_exception "text"
                      (stub (Fails port_in_use)) fresh port_in_use
                      Hfmt eq_refl eq_refl)).
    + reflexivity.
    + discriminate.
  - rewrite (proj2 (fastmcp_tool_wraps_unexpected_exception "text"
                      (stub (Fails cancelled)) fresh cancelled
                      Hfmt eq_refl eq_refl)).
    + reflexivity.
    + reflexivity.
Defined.

(** ** The FastMCP [show_ip] prompt *)

Lemma show_ip_run env st :
  FastMCP.show_ip env st
  = match FastMCP.get_ip_address "text" FastMCP.DEFAULT_USER_AGENT env
            (after st (Log INFO "Prompt 'show_ip' called" false)) with
    | (Ok ip_info, st') =>
        (Ok ("The server's public IP address is: " +:+ ip_info), st')
    | (Raise e, st') =>
        if Py.isinstance_Exception e then
          (Ok ("Sorry, I encountered an error trying to fetch the IP address: "
                 +:+ Py.str e),
           after st' (Log ERROR ("Error executing show_ip prompt: " +:+ Py.str e) true))
        else (Raise e, st')
    end.
Proof.
  unfold FastMCP.show_ip, after. run_monad.
  destruct (FastMCP.get_ip_address _ _ _ _) as [[ip|e] st']; [done|].
  now destruct (Py.isinstance_Exception e).
Qed.

(** X9.  The prompt sends exactly one request, for the text format with
    the default user agent, and it returns a string whatever the
    upstream does, except when the HTTP call raises something that is not
    an [Exception]: that alone leaves the prompt, unchanged. *)
Theorem show_ip_returns_a_string env st :
  gets (trace (FastMCP.show_ip env st).2)
  = gets (trace st)
    ++ [mkRequest "https://ifconfig.me" true
          [("User-Agent", FastMCP.DEFAULT_USER_AGENT)] 10]
  /\ ((exists message, (FastMCP.show_ip env st).1 = Ok message)
      \/ (exists e,
             transport env (length (gets (trace st)))
               (outbound "text" FastMCP.DEFAULT_USER_AGENT) = Fails e
             /\ Py.lib_cls e = Py.OtherBaseException
             /\ (FastMCP.show_ip env st).1 = Raise (Py.LibExc e))).
Proof.
  assert ("text" ∈ ["text"; "json"]) as Hfmt by constructor.
  rewrite show_ip_run.
  pose proof (fastmcp_run_gets "text" FastMCP.DEFAULT_USER_AGENT env
                (after st (Log INFO "Prompt 'show_ip' called" false))) as Hg.
  pose proof (fastmcp_run_result "text" FastMCP.DEFAULT_USER_AGENT env
                (after st (Log INFO "Prompt 'show_ip' called" false)) Hfmt) as Hres.
  rewrite gets_after_log in Hg, Hres.
  destruct (decide ("text" ∈ ["text"; "json"])) as [Hin|Hout]; [clear Hin|done].
  destruct (FastMCP.get_ip_address _ _ _ _) as [[ip|e] st']; cbn [fst snd] in *.
  - split; [exact Hg|]. left. eauto.
  - destruct (Py.isinstance_Exception e) eqn:Hexc; cbn [fst snd].
    + split; [now rewrite gets_after_log|]. left. eauto.
    + split; [exact Hg|]. right. unfold fastmcp_result in Hres.
      destruct (transport env _ _) as [r|le].
      * destruct (is_success r); inversion Hres; subst; discriminate.
      * destruct (Py.is_HTTPError_class (Py.lib_cls le)).
        -- inversion Hres; subst; discriminate.
        -- destruct (decide (Py.lib_cls le = Py.OtherBaseException));
             inversion Hres; subst; [eauto|discriminate].
Qed.

(** X10.  What the prompt says.  A 2xx reply: the body after its label.
    Any other reply: the apology followed by the text of the lookup's
    error, which names the status.  An [httpx.HTTPError] of the HTTP call
    itself: the apology followed by the text of the [UnboundLocalError]
    for [response].  Any other [Exception] of the HTTP call: the apology
    followed by "Unexpected error fetching IP". *)
Theorem show_ip_message env st :
  let asked := transport env (length (gets (trace st)))
                 (outbound "text" FastMCP.DEFAULT_USER_AGENT) in
  let sorry := "Sorry, I encountered an error trying to fetch the IP address: " in
  (forall r, asked = Responds r -> 200 <= status_code r <= 299 ->
     (FastMCP.show_ip env st).1
     = Ok ("The server's public IP address is: " +:+ text r))
  /\ (forall r, asked = Responds r -> ~ 200 <= status_code r <= 299 ->
     (FastMCP.show_ip env st).1
     = Ok (sorry +:+ "HTTP Error fetching IP: " +:+ pretty (status_code r)))
  /\ (forall e, asked = Fails e -> Py.is_HTTPError_class (Py.lib_cls e) = true ->
     (FastMCP.show_ip env st).1
     = Ok (sorry +:+ Py.str (Py.UnboundLocalError "response")))
  /\ (forall e, asked = Fails e -> Py.is_HTTPError_class (Py.lib_cls e) = false ->
     Py.lib_cls e <> Py.OtherBaseException ->
     (FastMCP.show_ip env st).1 = Ok (sorry +:+ "Unexpected error fetching IP")).
Proof.
  cbv zeta. rewrite show_ip_run.
  pose proof (gets_after_log st INFO "Prompt 'show_ip' called" false) as Hg.
  assert ("text" ∈ ["text"; "json"]) as Hfmt by constructor.
  repeat split.
  - intros r Hr Hs. rewrite (fastmcp_run_ok _ _ _ _ r); [done|done| |].
    + now rewrite Hg.
    + unfold is_success. now apply bool_decide_eq_true.
  - intros r Hr Hs. rewrite (fastmcp_run_status _ _ _ _ r); [done|done| |].
    + now rewrite Hg.
    + unfold is_success. now apply bool_decide_eq_false.
  - intros e He Hc. rewrite (fastmcp_run_http_error _ _ _ _ e); [done|done| |done].
    now rewrite Hg.
  - intros e He Hc Hb.
    rewrite (fastmcp_run_unexpected _ _ _ _ e); [done|done| |done|done].
    now rewrite Hg.
Qed.

Lemma show_ip_message_witness :
  (FastMCP.show_ip (stub (Responds (reply 200 "203.0.113.5"))) fresh).1
  = Ok ("The server's public IP address is: " +:+ "203.0.113.5")
  /\ (FastMCP.show_ip (stub (Responds (reply 503 ""))) fresh).1
     = Ok ("Sorry, I encountered an error trying to fetch the IP address: "
             +:+ "HTTP Error fetching IP: " +:+ pretty 503)
  /\ (FastMCP.show_ip (stub (Fails connect_timeout)) fresh).1
     = Ok ("Sorry, I encountered an error trying to fetch the IP address: "
             +:+ Py.str (Py.UnboundLocalError "response"))
  /\ (FastMCP.show_ip (stub (Fails port_in_use)) fresh).1
     = Ok ("Sorry, I encountered an error trying to fetch the IP address: "
             +:+ "Unexpected error fetching IP").
Proof.
  split; [|split; [|split]].
  - apply (proj1 (show_ip_message (stub (Responds (reply 200 "203.0.113.5"))) fresh)
             (reply 200 "203.0.113.5") eq_refl).
    simpl. lia.
  - apply (proj1 (proj2 (show_ip_message (stub (Responds (reply 503 ""))) fresh))
             (reply 503 "") eq_refl).
    simpl. lia.
  - apply (proj1 (proj2 (proj2 (show_ip_message (stub (Fails connect_timeout)) fresh)))
             connect_timeout eq_refl).
    reflexivity.
  - apply (proj2 (proj2 (proj2 (show_ip_message (stub (Fails port_in_use)) fresh)))
             port_in_use eq_refl).
    + reflexivity.
    + discriminate.
Defined.

(** ** Starting and stopping the servers *)

(** X11.  Every [Exception] that [serve] lets out was logged by it first:
    the last line of the trace is then the ERROR line "Unhandled
    exception" with the text of that exception, with [exc_info]. *)
Theorem serve_logs_what_it_reraises fw custom_user_agent host port env st e :
  (LowLevel.serve_and_run fw custom_user_agent host port env st).1 = Raise e ->
  Py.isinstance_Exception e = true ->
  last (trace (LowLevel.serve_and_run fw custom_user_agent host port env st).2)
  = Some (Log ERROR ("Unhandled exception: " +:+ Py.str e) true).
Proof.
  unfold LowLevel.serve_and_run, try_except.
  match goal with
  | |- context [match ?body with pair _ _ => _ end] =>
      destruct body as [[[]|e'] st']
  end; [discriminate|].
  destruct (Py.isinstance_Exception e') eqn:Hexc; run_monad.
  - intros [= ->] _. apply last_snoc.
  - intros [= ->] He. congruence.
Qed.

Lemma serve_logs_what_it_reraises_witness :
  last (trace (LowLevel.serve_and_run (framework_ending (Raise (Py.LibExc port_in_use)))
                 None "127.0.0.1" 8000
                 (stub (Responds (reply 200 "203.0.113.5"))) fresh).2)
  = Some (Log ERROR ("Unhandled exception: " +:+ Py.str (Py.LibExc port_in_use)) true).
Proof.
  apply (serve_logs_what_it_reraises
           (framework_ending (Raise (Py.LibExc port_in_use))) None "127.0.0.1" 8000
           (stub (Responds (reply 200 "203.0.113.5"))) fresh (Py.LibExc port_in_use)).
  - vm_compute. reflexivity.
  - reflexivity.
Defined.

(** X12.  The program looks its address up, in JSON and with the default
    user agent, before it serves, and outside any [try]: when that lookup
    fails, the program ends with the error of the lookup, whatever the
    framework is; [serve] is not entered and no "Fatal error" line is
    logged. *)
Theorem main_stops_at_failed_startup_lookup fw env st :
  let asked := transport env (length (gets (trace st)))
                 (outbound "json" LowLevel.DEFAULT_USER_AGENT) in
  let started :=
    trace st
      ++ [Log INFO "Starting MCP server" false;
          Log INFO "Fetching IP from https://ifconfig.me/all.json" false;
          Get (mkRequest "https://ifconfig.me/all.json" true
                 [("User-Agent", LowLevel.DEFAULT_USER_AGENT)] 10)] in
  (forall r, asked = Responds r -> 400 <= status_code r ->
     let error_msg :=
       "Failed to fetch IP address - status code " +:+ pretty (status_code r) in
     LowLevel.main fw env st
     = (Raise (Py.McpError INTERNAL_ERROR error_msg),
        mkState (started ++ [Log ERROR error_msg false]) (response st)))
  /\ (forall e, asked = Fails e -> Py.is_HTTPError_class (Py.lib_cls e) = true ->
     let error_msg := "Failed to fetch IP address: " +:+ Py.e_repr (Py.lib_text e) in
     LowLevel.main fw env st
     = (Raise (Py.McpError INTERNAL_ERROR error_msg),
        mkState (started ++ [Log ERROR error_msg false]) (response st)))
  /\ (forall e, asked = Fails e -> Py.is_HTTPError_class (Py.lib_cls e) = false ->
     LowLevel.main fw env st = (Raise (Py.LibExc e), mkState started (response st))).
Proof.
  cbv zeta. unfold LowLevel.main.
  pose proof (gets_after_log st INFO "Starting MCP server" false) as Hg.
  repeat split.
  - intros r Hr Hs. run_monad.
    rewrite (lowlevel_run_status _ _ _ _ r); [| |done].
    + cbn [trace response]. now rewrite <- !app_assoc.
    + fold (after st (Log INFO "Starting MCP server" false)). now rewrite Hg.
  - intros e He Hc. run_monad.
    rewrite (lowlevel_run_http_error _ _ _ _ e); [| |done].
    + cbn [trace response]. now rewrite <- !app_assoc.
    + fold (after st (Log INFO "Starting MCP server" false)). now rewrite Hg.
  - intros e He Hc. run_monad.
    rewrite (lowlevel_run_other_error _ _ _ _ e); [| |done].
    + cbn [trace response]. now rewrite <- !app_assoc.
    + fold (after st (Log INFO "Starting MCP server" false)). now rewrite Hg.
Qed.

Lemma main_stops_at_failed_startup_lookup_witness :
  (LowLevel.main (framework_ending (Ok tt)) (stub (Responds (reply 503 ""))) fresh).1
  = Raise (Py.McpError INTERNAL_ERROR
             ("Failed to fetch IP address - status code " +:+ pretty 503))
  /\ (LowLevel.main (framework_ending (Ok tt)) (stub (Fails connect_timeout)) fresh).1
     = Raise (Py.McpError INTERNAL_ERROR
                ("Failed to fetch IP address: " +:+ "ConnectTimeout('')"))
  /\ (LowLevel.main (framework_ending (Ok tt)) (stub (Fails port_in_use)) fresh).1
     = Raise (Py.LibExc port_in_use).
Proof.
  split; [|split].
  - rewrite (proj1 (main_stops_at_failed_startup_lookup (framework_ending (Ok tt))
                      (stub (Responds (reply 503 ""))) fresh) (reply 503 "") eq_refl).
    + reflexivity.
    + simpl. lia.
  - rewrite (proj1 (proj2 (main_stops_at_failed_startup_lookup
                             (framework_ending (Ok tt))
                             (stub (Fails connect_timeout)) fresh))
               connect_timeout eq_refl); reflexivity.
  - rewrite (proj2 (proj2 (main_stops_at_failed_startup_lookup
                             (framework_ending (Ok tt))
                             (stub (Fails port_in_use)) fresh))
               port_in_use eq_refl); reflexivity.
Defined.

(** X13.  Once the start-up lookup has succeeded, the low-level program
    never ends with an [Exception], whatever the framework does: it
    returns, or it ends with what is not an [Exception] ([SystemExit]
    from its own handler included).  The FastMCP program never ends with
    an [Exception] either. *)
Theorem main_never_ends_with_an_exception :
  (forall fw env st r e,
      transport env (length (gets (trace st)))
        (outbound "json" LowLevel.DEFAULT_USER_AGENT) = Responds r ->
      status_code r < 400 ->
      (LowLevel.main fw env st).1 = Raise e ->
      Py.isinstance_Exception e = false)
  /\ (forall run env st e,
      (FastMCP.main run env st).1 = Raise e ->
      Py.isinstance_Exception e = false).
Proof.
  split.
  - intros fw env st r e Hr Hs. unfold LowLevel.main.
    pose proof (gets_after_log st INFO "Starting MCP server" false) as Hg.
    run_monad. fold (after st (Log INFO "Starting MCP server" false)).
    rewrite (lowlevel_run_ok _ _ _ _ r); [| now rewrite Hg | done].
    destruct (LowLevel.serve_and_run _ _ _ _ _ _) as [[[]|e'] st'];
      cbn [fst]; [discriminate|].
    destruct (Py.isinstance_Exception e') eqn:Hexc; cbn [fst].
    + now intros [= <-].
    + now intros [= <-].
  - intros run env st e. unfold FastMCP.main. run_monad.
    destruct (run _ _) as [[[]|e'] st']; cbn [fst]; [discriminate|].
    destruct (Py.isinstance_Exception e') eqn:Hexc; cbn [fst].
    + now intros [= <-].
    + now intros [= <-].
Qed.

Lemma main_never_ends_with_an_exception_witness :
  Py.isinstance_Exception (Py.SystemExit 1) = false
  /\ (LowLevel.main (framework_ending (Raise (Py.LibExc port_in_use)))
        (stub (Responds (reply 200 "203.0.113.5"))) fresh).1
     = Raise (Py.SystemExit 1)
  /\ (FastMCP.main (fun _ st => (Raise (Py.LibExc port_in_use), st))
        (stub (Responds (reply 200 "203.0.113.5"))) fresh).1
     = Raise (Py.SystemExit 1).
Proof.
  assert ((LowLevel.main (framework_ending (Raise (Py.LibExc port_in_use)))
             (stub (Responds (reply 200 "203.0.113.5"))) fresh).1
          = Raise (Py.SystemExit 1)) as Hlow by (vm_compute; reflexivity).
  assert ((FastMCP.main (fun _ st => (Raise (Py.LibExc port_in_use), st))
             (stub (Responds (reply 200 "203.0.113.5"))) fresh).1
          = Raise (Py.SystemExit 1)) as Hfast by (vm_compute; reflexivity).
  split; [|split; [exact Hlow|exact Hfast]].
  apply (proj1 main_never_ends_with_an_exception
           (framework_ending (Raise (Py.LibExc port_in_use)))
           (stub (Responds (reply 200 "203.0.113.5"))) fresh
           (reply 200 "203.0.113.5") (Py.SystemExit 1)).
  - reflexivity.
  - simpl. lia.
  - exact Hlow.
Defined.

(** ** One call after another *)

Lemma then_run {A B} (first : M A) (second : M B) env st :
  then_ first second env st
  = match first env st with
    | (Ok _, st') => second env st'
    | (Raise e, st') => (Raise e, st')
    end.
Proof. reflexivity. Qed.

Lemma ipcheck_run_result format env st :
  format ∈ ["text"; "json"] ->
  (FastMCP.ipcheck format env st).1
  = match fastmcp_result (transport env (length (gets (trace st)))
                            (outbound format FastMCP.DEFAULT_USER_AGENT)) with
    | Ok ip_info =>
        Ok ("Server IP information (" +:+ format +:+ "):" +:+ Py.nl +:+ ip_info)
    | Raise e => Raise e
    end.
Proof.
  intros Hfmt. rewrite ipcheck_run.
  rewrite <- (gets_ipcheck_entry st format), <- fastmcp_run_result by done.
  destruct (FastMCP.get_ip_address _ _ _ _) as [[ip|e] st']; [done|].
  now destruct (Py.isinstance_Exception e).
Qed.

Lemma ipcheck_run_requests format env st :
  format ∈ ["text"; "json"] ->
  gets (trace (FastMCP.ipcheck format env st).2)
  = gets (trace st) ++ [outbound format FastMCP.DEFAULT_USER_AGENT].
Proof.
  intros Hfmt. rewrite ipcheck_run_gets, fastmcp_run_gets, gets_ipcheck_entry.
  now destruct (decide (format ∈ ["text"; "json"])).
Qed.

(** X14.  Low-level tool calls keep nothing from one another: after a
    first call that returned, a second call sends a request of its own
    and returns the body of the reply to that request, not the body the
    first call got. *)
Theorem lowlevel_calls_share_nothing
    user_agent name name' arguments arguments' fmt fmt' env st r r' :
  asks_for arguments fmt -> fmt ∈ ["text"; "json"] ->
  asks_for arguments' fmt' -> fmt' ∈ ["text"; "json"] ->
  transport env (length (gets (trace st))) (outbound fmt user_agent) = Responds r ->
  status_code r < 400 ->
  transport env (S (length (gets (trace st)))) (outbound fmt' user_agent)
  = Responds r' ->
  status_code r' < 400 ->
  (then_ (LowLevel.call_tool user_agent name arguments)
         (LowLevel.call_tool user_agent name' arguments') env st).1
  = Ok [LowLevel.mkTextContent "text"
          ("Server IP information from ifconfig.me:" +:+ Py.nl +:+ text r')]
  /\ gets (trace (then_ (LowLevel.call_tool user_agent name arguments)
                        (LowLevel.call_tool user_agent name' arguments') env st).2)
     = gets (trace st) ++ [outbound fmt user_agent; outbound fmt' user_agent].
Proof.
  intros Hask Hfmt Hask' Hfmt' Hr Hs Hr' Hs'. rewrite then_run.
  pose proof (call_tool_run_gets user_agent name arguments fmt env st Hask Hfmt) as Hg.
  assert ((LowLevel.call_tool user_agent name arguments env st).1
          = Ok [LowLevel.mkTextContent "text"
                  ("Server IP information from ifconfig.me:" +:+ Py.nl +:+ text r)])
    as Hfirst.
  { rewrite (call_tool_run_valid _ _ _ fmt) by done.
    rewrite (lowlevel_run_ok _ _ _ _ r); [done| |done].
    now rewrite gets_call_tool_entry. }
  destruct (LowLevel.call_tool user_agent name arguments env st) as [[res|e] st1];
    cbn [fst snd] in *; [|discriminate].
  assert (length (gets (trace st1)) = S (length (gets (trace st)))) as Hn.
  { rewrite Hg, length_app. simpl. lia. }
  split.
  - rewrite (call_tool_run_valid _ _ _ fmt') by done.
    rewrite (lowlevel_run_ok _ _ _ _ r'); [done| |done].
    now rewrite gets_call_tool_entry, Hn.
  - rewrite (call_tool_run_gets _ _ _ fmt') by done. rewrite Hg.
    now rewrite <- app_assoc.
Qed.

Lemma lowlevel_calls_share_nothing_witness :
  let env := mkEnv (fun n _ => Responds (reply 200 (pretty (Z.of_nat n))))
                   (fun _ => "") (fun _ => "") in
  (then_ (LowLevel.call_tool "ua" "ipcheck" ∅)
         (LowLevel.call_tool "ua" "ipcheck" {[ "format" := Py.VStr "json" ]})
         env fresh).1
  = Ok [LowLevel.mkTextContent "text"
          ("Server IP information from ifconfig.me:" +:+ Py.nl +:+ "1")]
  /\ gets (trace (then_ (LowLevel.call_tool "ua" "ipcheck" ∅)
                        (LowLevel.call_tool "ua" "ipcheck"
                           {[ "format" := Py.VStr "json" ]})
                        env fresh).2)
     = gets (trace fresh) ++ [outbound "text" "ua"; outbound "json" "ua"].
Proof.
  cbv zeta.
  apply (lowlevel_calls_share_nothing "ua" "ipcheck" "ipcheck" ∅
           {[ "format" := Py.VStr "json" ]} "text" "json"
           (mkEnv (fun n _ => Responds (reply 200 (pretty (Z.of_nat n))))
                  (fun _ => "") (fun _ => ""))
           fresh (reply 200 "0") (reply 200 "1")).
  - right. split; reflexivity.
  - constructor.
  - left. reflexivity.
  - do 2 constructor.
  - reflexivity.
  - simpl. lia.
  - reflexivity.
  - simpl. lia.
Defined.

(** X15.  In the FastMCP variant the local [response] of one lookup is
    not there for the next: when a first tool call got its reply and the
    HTTP call of a second one fails with an [httpx.HTTPError], the second
    call still fails with [UnboundLocalError], after a request of its
    own. *)
Theorem fastmcp_calls_share_nothing format format' env st r e :
  format ∈ ["text"; "json"] -> format' ∈ ["text"; "json"] ->
  transport env (length (gets (trace st)))
    (outbound format FastMCP.DEFAULT_USER_AGENT) = Responds r ->
  200 <= status_code r <= 299 ->
  transport env (S (length (gets (trace st))))
    (outbound format' FastMCP.DEFAULT_USER_AGENT) = Fails e ->
  Py.is_HTTPError_class (Py.lib_cls e) = true ->
  (then_ (FastMCP.ipcheck format) (FastMCP.ipcheck format') env st).1
  = Raise (Py.UnboundLocalError "response")
  /\ gets (trace (then_ (FastMCP.ipcheck format) (FastMCP.ipcheck format') env st).2)
     = gets (trace st)
       ++ [outbound format FastMCP.DEFAULT_USER_AGENT;
           outbound format' FastMCP.DEFAULT_USER_AGENT].
Proof.
  intros Hfmt Hfmt' Hr Hs He Hc. rewrite then_run.
  pose proof (ipcheck_run_requests format env st Hfmt) as Hg.
  pose proof (ipcheck_run_result format env st Hfmt) as Hfirst.
  rewrite Hr in Hfirst. unfold fastmcp_result, is_success in Hfirst.
  rewrite bool_decide_eq_true_2 in Hfirst by done.
  destruct (FastMCP.ipcheck format env st) as [[res|e1] st1];
    cbn [fst snd] in *; [|discriminate].
  assert (length (gets (trace st1)) = S (length (gets (trace st)))) as Hn.
  { rewrite Hg, length_app. simpl. lia. }
  split.
  - rewrite ipcheck_run_result, Hn, He by done. unfold fastmcp_result.
    now rewrite Hc.
  - rewrite ipcheck_run_requests, Hg by done. now rewrite <- app_assoc.
Qed.

Lemma fastmcp_calls_share_nothing_witness :
  let env := mkEnv (fun n _ => match n with
                               | O => Responds (reply 200 "203.0.113.5")
                               | S _ => Fails connect_timeout
                               end)
                   (fun _ => "") (fun _ => "") in
  (then_ (FastMCP.ipcheck "text") (FastMCP.ipcheck "json") env fresh).1
  = Raise (Py.UnboundLocalError "response")
  /\ gets (trace (then_ (FastMCP.ipcheck "text") (FastMCP.ipcheck "json") env fresh).2)
     = gets (trace fresh)
       ++ [outbound "text" FastMCP.DEFAULT_USER_AGENT;
           outbound "json" FastMCP.DEFAULT_USER_AGENT].
Proof.
  cbv zeta.
  apply (fastmcp_calls_share_nothing "text" "json"
           (mkEnv (fun n _ => match n with
                              | O => Responds (reply 200 "203.0.113.5")
                              | S _ => Fails connect_timeout
                              end)
                  (fun _ => "") (fun _ => ""))
           fresh (reply 200 "203.0.113.5") connect_timeout).
  - constructor.
  - do 2 constructor.
  - reflexivity.
  - simpl. lia.
  - reflexivity.
  - reflexivity.
Defined.

(** ** Rejected calls and requests *)

(** X16.  A tool call sends no request exactly when it is rejected for
    its format.  The low-level tool either fails with [INVALID_PARAMS]
    and sends nothing, or sends exactly one request and ends in any other
    way; the FastMCP tool either fails with the [ValueError] of the guard
    and sends nothing, or sends exactly one request and ends in any other
    way. *)
Theorem rejected_iff_nothing_sent :
  (forall user_agent name arguments env st,
      ((exists message,
           (LowLevel.call_tool user_agent name arguments env st).1
           = Raise (Py.McpError INVALID_PARAMS message))
       /\ gets (trace (LowLevel.call_tool user_agent name arguments env st).2)
          = gets (trace st))
      \/ ((forall message,
              (LowLevel.call_tool user_agent name arguments env st).1
              <> Raise (Py.McpError INVALID_PARAMS message))
          /\ exists req,
              gets (trace (LowLevel.call_tool user_agent name arguments env st).2)
              = gets (trace st) ++ [req]))
  /\ (forall format env st,
      ((FastMCP.ipcheck format env st).1
       = Raise (Py.ValueError "Invalid format_type specified.")
       /\ gets (trace (FastMCP.ipcheck format env st).2) = gets (trace st))
      \/ ((forall message,
              (FastMCP.ipcheck format env st).1 <> Raise (Py.ValueError message))
          /\ exists req,
              gets (trace (FastMCP.ipcheck format env st).2)
              = gets (trace st) ++ [req])).
Proof.
  split.
  - intros user_agent name arguments env st.
    rewrite call_tool_run_result, call_tool_run_requests.
    destruct (format_argument arguments) as [| | | |s| |];
      try (left; split; [eauto|apply app_nil_r]).
    destruct (decide (s ∈ ["text"; "json"])) as [Hfmt|Hfmt];
      [|left; split; [eauto|apply app_nil_r]].
    right. split; [|eauto]. intros message. unfold lowlevel_result.
    destruct (transport env _ _) as [r|e].
    + now destruct (decide (400 <= status_code r)).
    + now destruct (Py.is_HTTPError_class (Py.lib_cls e)).
  - intros format env st.
    destruct (decide (format ∈ ["text"; "json"])) as [Hfmt|Hfmt].
    + right. rewrite ipcheck_run_result, ipcheck_run_requests by done.
      split; [|eauto]. intros message. unfold fastmcp_result.
      destruct (transport env _ _) as [r|e].
      * now destruct (is_success r).
      * destruct (Py.is_HTTPError_class (Py.lib_cls e)); [done|].
        now destruct (decide (Py.lib_cls e = Py.OtherBaseException)).
    + left. rewrite ipcheck_run, fastmcp_run_invalid
        by (intros ->; apply Hfmt; repeat constructor).
      simpl. split; [done|]. unfold ipcheck_entry. gets_of_trace.
Qed.
